(** * Retail sales dashboard: the filtering and aggregation layer of [app.py]

    A shallow embedding of the data-frame pipeline of [src/app.py] and the
    properties its specification states about it.

    Conventions of the embedding.
    - A data frame is the list of its rows, in index order; a column (a pandas
      Series) is the list of the cells of that column, [map field df]; a Series
      with an index is the list of its (label, value) pairs.
    - A pandas [Timestamp] is its integer number of nanoseconds since
      1970-01-01T00:00, a [Timedelta] a number of nanoseconds.
    - Real-valued columns ([Weekly_Sales], [Fuel_Price], [Temperature]) are
      exact rationals: the rounding of binary floating point is not modelled.
      A missing value (NaN / None) is [None] of an [option].
    - Column names, labels and holiday names are the strings of the source.
    - [sort_values] is called by the program with pandas' default
      [kind='quicksort'], which pandas documents as not stable: it is a
      relation between a frame and each ordering that call may return. *)

From Stdlib Require Import List ZArith QArith Qround Qabs Bool Lia Lqa.
From Stdlib Require Import String Ascii DecimalString.
From Stdlib Require Import Sorted Permutation RelationClasses.
From Stdlib Require Import Orders OrdersEx.
Import ListNotations.

Open Scope string_scope.
Open Scope Z_scope.

(** * Part I: the program *)

(** ** Calendar dates and timestamps *)

Module Time.

(** [datetime.date]: a day number, days since 1970-01-01. *)
Definition date := Z.

(** [pandas.Timestamp]: nanoseconds since the epoch. *)
Definition Timestamp := Z.

(** [pandas.Timedelta]: nanoseconds. *)
Definition Timedelta := Z.

Definition NS_PER_DAY : Z := 86400 * 1000000000.

(** Day number of the civil date [y]-[m]-[d] (proleptic Gregorian). *)
Definition days_from_civil (y m d : Z) : date :=
  let y' := if m <=? 2 then y - 1 else y in
  let era := y' / 400 in
  let yoe := y' - era * 400 in
  let mp := if m >? 2 then m - 3 else m + 9 in
  let doy := (153 * mp + 2) / 5 + d - 1 in
  let doe := yoe * 365 + yoe / 4 - yoe / 100 + doy in
  era * 146097 + doe - 719468.

(** [pd.to_datetime] of a date: midnight of that day. *)
Definition to_datetime (d : date) : Timestamp := d * NS_PER_DAY.

(** [pd.to_datetime('y-m-d')]. *)
Definition timestamp_of (y m d : Z) : Timestamp :=
  to_datetime (days_from_civil y m d).

(** [pd.Timedelta(weeks=n)]. *)
Definition Timedelta_weeks (n : Z) : Timedelta := n * 7 * NS_PER_DAY.

(** [Timedelta.days] (the [.dt.days] accessor): whole days, rounded towards
    minus infinity. *)
Definition td_days (t : Timedelta) : Z := t / NS_PER_DAY.

End Time.
Import Time.

(** ** The base table *)

(** One row of [merged_data.csv], with the columns the program reads. *)
Record Row := mkRow {
  Date : Timestamp;
  Store : Z;
  Dept : Z;
  Weekly_Sales : Q;
  IsHoliday_x : bool;
  IsSuperBowl : bool;
  IsLaborDay : bool;
  IsThanksgiving : bool;
  IsChristmas : bool;
  Fuel_Price : Q;
  Temperature : Q;
  Size : Z;
  Type_ : string;
  Month_Name : string;
  Week : Z;
  Year : Z
}.

Definition DataFrame := list Row.

(** ** Boolean masks and boolean indexing *)

Module Mask.

(** [a & b] on two boolean Series, cell by cell. *)
Fixpoint and (a b : list bool) : list bool :=
  match a, b with
  | x :: a', y :: b' => (x && y) :: and a' b'
  | _, _ => []
  end.

(** [df[mask]]: the rows whose mask cell is [True], in index order. *)
Fixpoint index {A : Type} (df : list A) (mask : list bool) : list A :=
  match df, mask with
  | r :: df', b :: mask' =>
      if b then r :: index df' mask' else index df' mask'
  | _, _ => []
  end.

End Mask.

(** ** Reductions and indexed Series *)

Module Series.

(** [Series.sum()]: 0 for an empty Series. *)
Definition sum (l : list Q) : Q := fold_right Qplus 0%Q l.

(** [Series.mean()]: NaN for an empty Series. *)
Definition mean (l : list Q) : option Q :=
  match l with
  | [] => None
  | _ :: _ => Some (sum l / inject_Z (Z.of_nat (List.length l)))%Q
  end.

(** Look a label up in a string-indexed Series. *)
Fixpoint lookup {V : Type} (label : string) (s : list (string * V)) : option V :=
  match s with
  | [] => None
  | (k, v) :: s' => if String.eqb k label then Some v else lookup label s'
  end.

(** [Series.reindex(labels)]: one entry per label of [labels], in that order;
    a label the Series does not have gets NaN. *)
Definition reindex {V : Type} (labels : list string) (s : list (string * V))
    : list (string * option V) :=
  map (fun label => (label, lookup label s)) labels.

(** [Series.unique()]: the distinct values in order of first appearance. *)
Fixpoint unique (l : list string) : list string :=
  match l with
  | [] => []
  | x :: l' => x :: filter (fun y => negb (String.eqb y x)) (unique l')
  end.

End Series.

(** ** [DataFrame.groupby(key)] with the default [sort=True] *)

Section GroupBy.

Context {K : Type} (cmp : K -> K -> comparison).

(** Insert a key into an ascending list of distinct keys. *)
Fixpoint insert_key (k : K) (ks : list K) : list K :=
  match ks with
  | [] => [k]
  | k' :: ks' =>
      match cmp k k' with
      | Lt => k :: ks
      | Eq => ks
      | Gt => k' :: insert_key k ks'
      end
  end.

(** The group keys: the distinct keys that occur, ascending. *)
Definition group_keys (keys : list K) : list K :=
  fold_right insert_key [] keys.

Definition key_eqb (a b : K) : bool :=
  match cmp a b with Eq => true | _ => false end.

(** The groups, ascending by key; each group holds its rows in index order. *)
Definition groupby {A : Type} (key : A -> K) (df : list A) : list (K * list A) :=
  map (fun k => (k, filter (fun r => key_eqb (key r) k) df))
      (group_keys (map key df)).

(** [groupby(key)[measure].sum()]. *)
Definition groupby_sum {A : Type} (key : A -> K) (measure : A -> Q)
    (df : list A) : list (K * Q) :=
  map (fun g => (fst g, Series.sum (map measure (snd g)))) (groupby key df).

(** [groupby(key)[measure].mean()]. *)
Definition groupby_mean {A : Type} (key : A -> K) (measure : A -> Q)
    (df : list A) : list (K * option Q) :=
  map (fun g => (fst g, Series.mean (map measure (snd g)))) (groupby key df).

End GroupBy.

(** Python compares strings by code point, integers by value. *)
Definition str_cmp : string -> string -> comparison := String_as_OT.compare.
Definition int_cmp : Z -> Z -> comparison := Z.compare.

(** What grouping needs of a comparison: it is a strict total order. *)
Record StrictCmp {K : Type} (cmp : K -> K -> comparison) : Prop := {
  cmp_eq : forall a b, cmp a b = Eq <-> a = b;
  cmp_antisym : forall a b, cmp a b = CompOpp (cmp b a);
  cmp_trans : forall a b c, cmp a b = Lt -> cmp b c = Lt -> cmp a c = Lt
}.

(** Strictly ascending keys. *)
Definition ascending {K : Type} (cmp : K -> K -> comparison) (keys : list K) : Prop :=
  StronglySorted (fun a b => cmp a b = Lt) keys.

(** ** [sort_values(by, ascending=False)] with the default sort kind

    pandas documents the parameter as [kind : {'quicksort', 'mergesort',
    'heapsort', 'stable'}, default 'quicksort'], of which only mergesort and
    stable are stable. The program passes no [kind], so the call fixes the
    order of rows with different sort values only. *)

Module Sort.

Section Desc.

Context {A : Type} (by_ : A -> Q).

(** [a] may stand before [b] in a descending ordering. *)
Definition ge_by (a b : A) : Prop := (by_ b <= by_ a)%Q.

(** [out] is a descending ordering of the rows of [df]. Rows with equal sort
    values may come out in any relative order. *)
Definition sort_values_desc (df out : list A) : Prop :=
  Permutation df out /\ StronglySorted ge_by out.



End Desc.

End Sort.

(** ** Filter engine (sidebar filters, lines 26-52 and 133-143) *)

Module Filter.

(** The three positions of the holiday selector, as the specification names
    them. *)
Inductive HolidayMode := All | HolidayOnly | NonHolidayOnly.

(** The option string the select box returns for each position:
    [options=["All", "Yes", "No"]]. *)
Definition selectbox (m : HolidayMode) : string :=
  match m with
  | All => "All"
  | HolidayOnly => "Yes"
  | NonHolidayOnly => "No"
  end.

(** [(df['Date'] >= pd.to_datetime(date_range[0])) &
    (df['Date'] <= pd.to_datetime(date_range[1]))]. *)
Definition date_mask (df : DataFrame) (date_range : date * date) : list bool :=
  Mask.and
    (map (fun r => Date r >=? to_datetime (fst date_range)) df)
    (map (fun r => Date r <=? to_datetime (snd date_range)) df).

(** One cell of that mask. *)
Definition date_test (date_range : date * date) (r : Row) : bool :=
  (Date r >=? to_datetime (fst date_range)) &&
  (Date r <=? to_datetime (snd date_range)).

(** The [if holiday_filter == "Yes": ... elif holiday_filter == "No": ...]
    step, which both filtered views end with. *)
Definition holiday_step (df : DataFrame) (holiday_filter : string) : DataFrame :=
  if String.eqb holiday_filter "Yes" then
    Mask.index df (map (fun r => Bool.eqb (IsHoliday_x r) true) df)
  else if String.eqb holiday_filter "No" then
    Mask.index df (map (fun r => Bool.eqb (IsHoliday_x r) false) df)
  else df.

(** [df_filtered] of lines 40-52. *)
Definition df_filtered (df : DataFrame) (date_range : date * date)
    (holiday_filter : string) : DataFrame :=
  let df_filtered := df in
  let df_filtered := Mask.index df_filtered (date_mask df_filtered date_range) in
  holiday_step df_filtered holiday_filter.

(** [df_chart_filtered] of lines 134-143. *)
Definition df_chart_filtered (df : DataFrame)
    (store_for_chart dept_for_chart : Z) (date_range : date * date)
    (holiday_filter : string) : DataFrame :=
  let df_chart_filtered :=
    Mask.index df
      (Mask.and
         (Mask.and
            (Mask.and
               (map (fun r => Store r =? store_for_chart) df)
               (map (fun r => Dept r =? dept_for_chart) df))
            (map (fun r => Date r >=? to_datetime (fst date_range)) df))
         (map (fun r => Date r <=? to_datetime (snd date_range)) df)) in
  holiday_step df_chart_filtered holiday_filter.

(** The predicates of the specification's [FilterSpec], row by row. *)
Definition date_in_range (date_range : date * date) (r : Row) : Prop :=
  to_datetime (fst date_range) <= Date r <= to_datetime (snd date_range).

Definition holiday_pred (m : HolidayMode) (r : Row) : Prop :=
  match m with
  | All => True
  | HolidayOnly => IsHoliday_x r = true
  | NonHolidayOnly => IsHoliday_x r = false
  end.

End Filter.

(** ** Holiday-type classification (lines 407-412 and 490-502) *)

Module HolidayType.

(** [get_holiday_type(row)] of lines 490-500. The four flag columns are
    columns of the table, so [row.get(flag, False)] is the row's cell. *)
Definition get_holiday_type (row : Row) : string :=
  if IsSuperBowl row then "Super Bowl"
  else if IsLaborDay row then "Labor Day"
  else if IsThanksgiving row then "Thanksgiving"
  else if IsChristmas row then "Christmas"
  else "None".

(** [df.loc[mask, column] = value]: the cells of [column] whose mask cell is
    [True] are overwritten. *)
Fixpoint loc_assign (column : list string) (mask : list bool) (value : string)
    : list string :=
  match column, mask with
  | c :: column', b :: mask' =>
      (if b then value else c) :: loc_assign column' mask' value
  | _, _ => column
  end.

(** The column [df_holidays['Holiday_Type']] after lines 408-412. *)
Definition df_holidays_Holiday_Type (df : DataFrame) : list string :=
  let Holiday_Type := map (fun _ => "None") df in
  let Holiday_Type := loc_assign Holiday_Type (map IsSuperBowl df) "Super Bowl" in
  let Holiday_Type := loc_assign Holiday_Type (map IsLaborDay df) "Labor Day" in
  let Holiday_Type := loc_assign Holiday_Type (map IsThanksgiving df) "Thanksgiving" in
  let Holiday_Type := loc_assign Holiday_Type (map IsChristmas df) "Christmas" in
  Holiday_Type.

(** The five labels. *)
Definition labels : list string :=
  ["Super Bowl"; "Labor Day"; "Thanksgiving"; "Christmas"; "None"].

(** The specification's classification: the label of the first true flag of a
    priority list, ["None"] when no flag is true. *)
Fixpoint first_true (flags : list (bool * string)) : string :=
  match flags with
  | [] => "None"
  | (b, label) :: flags' => if b then label else first_true flags'
  end.

(** The flags of a row in the priority order the specification gives:
    Super Bowl > Labor Day > Thanksgiving > Christmas. *)
Definition by_priority (row : Row) : list (bool * string) :=
  [(IsSuperBowl row, "Super Bowl"); (IsLaborDay row, "Labor Day");
   (IsThanksgiving row, "Thanksgiving"); (IsChristmas row, "Christmas")].

(** The flags of a row from the last assignment of lines 409-412 to the
    first. *)
Definition by_last_assignment (row : Row) : list (bool * string) :=
  [(IsChristmas row, "Christmas"); (IsThanksgiving row, "Thanksgiving");
   (IsLaborDay row, "Labor Day"); (IsSuperBowl row, "Super Bowl")].


End HolidayType.

(** ** Total sales by month (lines 160-170 and 212-222) *)

Module Monthly.

Definition monthly_order : list string :=
  ["January"; "February"; "March"; "April"; "May"; "June";
   "July"; "August"; "September"; "October"; "November"; "December"].

(** [view.groupby('Month_Name')['Weekly_Sales'].sum().reindex(monthly_order)
    .reset_index()]: the (Month, Sales) rows of the chart. The first tab
    passes the filtered view, the second the base table. *)
Definition monthly_sales (view : DataFrame) : list (string * option Q) :=
  Series.reindex monthly_order
    (groupby_sum str_cmp Month_Name Weekly_Sales view).

End Monthly.

(** ** Top departments by sales (lines 287-294) *)

Module TopN.



End TopN.

(** ** [pd.cut(x, bins=nbins)] (lines 313-314 and 335-336) *)

Module Cut.

(** [Series.min()] and [Series.max()]; [None] for an empty Series. *)
Fixpoint minimum (x : list Q) : option Q :=
  match x with
  | [] => None
  | v :: x' =>
      match minimum x' with
      | None => Some v
      | Some m => Some (if Qle_bool v m then v else m)
      end
  end.

Fixpoint maximum (x : list Q) : option Q :=
  match x with
  | [] => None
  | v :: x' =>
      match maximum x' with
      | None => Some v
      | Some m => Some (if Qle_bool m v then v else m)
      end
  end.

(** [np.linspace(start, stop, nbins + 1, endpoint=True)]. *)
Definition linspace (start stop : Q) (nbins : nat) : list Q :=
  map (fun i => start + inject_Z (Z.of_nat i) *
                        ((stop - start) / inject_Z (Z.of_nat nbins)))%Q
      (seq 0 (S nbins)).

(** [_nbins_to_bins]: the bin edges for an integer [bins]. [None] is the
    [ValueError] for [bins < 1] and for an empty array. *)
Definition nbins_to_bins (x : list Q) (nbins : nat) : option (list Q) :=
  if (nbins <? 1)%nat then None
  else
    match minimum x, maximum x with
    | Some mn, Some mx =>
        if Qeq_bool mn mx then
          (* adjust end points before binning *)
          let mn' := (mn - (if negb (Qeq_bool mn 0) then 0.001 * Qabs mn else 0.001))%Q in
          let mx' := (mx + (if negb (Qeq_bool mx 0) then 0.001 * Qabs mx else 0.001))%Q in
          Some (linspace mn' mx' nbins)
        else
          (* adjust end points after binning: right=True lowers bins[0] *)
          let bins := linspace mn mx nbins in
          let adj := ((mx - mn) * 0.001)%Q in
          match bins with
          | b0 :: rest => Some ((b0 - adj)%Q :: rest)
          | [] => Some []
          end
    | _, _ => None
    end.



(** [bins.searchsorted(v, side='left')]: the first position whose edge is not
    below [v]. *)
Fixpoint searchsorted_left (bins : list Q) (v : Q) : nat :=
  match bins with
  | [] => O
  | e :: bins' =>
      if Qle_bool v e then O else S (searchsorted_left bins' v)
  end.

(** The bin number of a value, from 1; [None] (NaN) outside the edges. Bin
    [i] is the interval [(bins[i-1], bins[i]]]. *)
Definition bin_id (bins : list Q) (v : Q) : option nat :=
  let id := searchsorted_left bins v in
  if (id =? 0)%nat || (id =? List.length bins)%nat then None else Some id.

(** The bin number of each cell of a column. *)
Definition bin_ids (x : list Q) (nbins : nat) : option (list (option nat)) :=
  option_map (fun bins => map (bin_id bins) x) (nbins_to_bins x nbins).

End Cut.

(** ** Interval labels: [_format_labels] and [astype(str)] *)

Module Label.

(** An interval closed on the right, [(left, right]]. *)
Record Interval := mkInterval { left : Q; right : Q }.

(** Round half to even. *)
Definition rint (y : Q) : Z :=
  let f := Qfloor y in
  match (y - inject_Z f ?= 1 # 2)%Q with
  | Lt => f
  | Gt => f + 1
  | Eq => if Z.even f then f else f + 1
  end.

(** [np.around(x, digits)]. *)
Definition around (x : Q) (digits : Z) : Q :=
  (inject_Z (rint (x * inject_Z (10 ^ digits))) / inject_Z (10 ^ digits))%Q.

(** For [0 < x < 1]: the least [k >= 1] with [x * 10^k >= 1], which is
    [- floor (log10 x)]. *)
Fixpoint leading (fuel : nat) (x : Q) : Z :=
  match fuel with
  | O => 1
  | S fuel' =>
      if Qle_bool 1 (x * 10) then 1 else 1 + leading fuel' (x * 10)%Q
  end.

Definition neg_floor_log10 (x : Q) : Z :=
  leading (Pos.size_nat (Qden x)) x.

(** [_round_frac(x, precision)]. *)
Definition round_frac (x : Q) (precision : Z) : Q :=
  if Qeq_bool x 0 then x
  else
    let whole := Z.quot (Qnum x) (Zpos (Qden x)) in
    let digits :=
      if whole =? 0 then neg_floor_log10 (Qabs x) - 1 + precision
      else precision in
    around x digits.

Fixpoint all_distinct (l : list Q) : bool :=
  match l with
  | [] => true
  | x :: l' => negb (existsb (Qeq_bool x) l') && all_distinct l'
  end.

(** [_infer_precision(base_precision, bins)]: the first precision from
    [base_precision] to 19 at which the rounded edges are distinct. *)
Fixpoint infer_loop (fuel : nat) (precision base_precision : Z) (bins : list Q) : Z :=
  match fuel with
  | O => base_precision
  | S fuel' =>
      if all_distinct (map (fun b => round_frac b precision) bins)
      then precision
      else infer_loop fuel' (precision + 1) base_precision bins
  end.

Definition infer_precision (base_precision : Z) (bins : list Q) : Z :=
  infer_loop (Z.to_nat (20 - base_precision)) base_precision base_precision bins.

(** [_format_labels(bins, precision, right=True, include_lowest=False)]: the
    rounded breaks. *)
Definition format_labels (bins : list Q) (precision : Z) : list Q :=
  map (fun b => round_frac b precision) bins.

(** The digits after the decimal point of [num / den], [0 <= num < den],
    without trailing zeros. *)
Fixpoint frac_digits (fuel : nat) (num den : Z) : string :=
  match fuel with
  | O => ""
  | S fuel' =>
      if num =? 0 then ""
      else
        String (ascii_of_nat (48 + Z.to_nat (num * 10 / den)))
               (frac_digits fuel' (num * 10 mod den) den)
  end.

(** [str(x)] of a float whose decimal expansion ends within 40 digits and that
    Python prints in positional notation: ["20.0"], ["-0.12"], ["14.973"]. *)
Definition repr_float (x : Q) : string :=
  let num := Z.abs (Qnum x) in
  let den := Zpos (Qden x) in
  let frac := frac_digits 40 (num mod den) den in
  (if Qnum x <? 0 then "-" else "") ++
  NilZero.string_of_uint (N.to_uint (Z.to_N (num / den))) ++ "." ++
  (if String.eqb frac "" then "0" else frac).

(** [str(interval)]. *)
Definition interval_str (i : Interval) : string :=
  "(" ++ repr_float (left i) ++ ", " ++ repr_float (right i) ++ "]".

(** [pd.cut(x, bins=nbins)]: the interval of each cell, NaN ([None]) for a
    cell outside the edges. [None] for the whole call is its [ValueError]. *)
Definition cut (x : list Q) (nbins : nat) : option (list (option Interval)) :=
  match Cut.nbins_to_bins x nbins with
  | None => None
  | Some bins =>
      let breaks := format_labels bins (infer_precision 3 bins) in
      Some (map (fun v =>
                   match Cut.bin_id bins v with
                   | None => None
                   | Some id =>
                       Some (mkInterval (nth (id - 1) breaks 0%Q) (nth id breaks 0%Q))
                   end) x)
  end.

(** [.astype(str)] of a cell of the cut. *)
Definition astype_str (c : option Interval) : string :=
  match c with
  | None => "nan"
  | Some i => interval_str i
  end.

End Label.

(** ** Average sales by fuel price and by temperature range
       (lines 313-317 and 335-339) *)

Module Binned.

(** [pd.cut(df[attribute], bins=nbins)] followed by
    [df[bin_column] = bins.astype(str)] and
    [df.groupby(bin_column)['Weekly_Sales'].mean().reset_index()]. *)
Definition bin_column (attribute : Row -> Q) (nbins : nat) (df : DataFrame)
    : option (list string) :=
  option_map (map Label.astype_str) (Label.cut (map attribute df) nbins).

Definition binned_sales (attribute : Row -> Q) (nbins : nat) (df : DataFrame)
    : option (list (string * option Q)) :=
  option_map
    (fun column =>
       groupby_mean str_cmp fst (fun c => Weekly_Sales (snd c)) (combine column df))
    (bin_column attribute nbins df).

Definition fuel_bins (df : DataFrame) := Label.cut (map Fuel_Price df) 5.
Definition temp_bins (df : DataFrame) := Label.cut (map Temperature df) 6.
Definition fuel_sales (df : DataFrame) := binned_sales Fuel_Price 5 df.
Definition temp_sales (df : DataFrame) := binned_sales Temperature 6 df.


End Binned.

(** ** Sales around holidays (lines 437-451) *)

Module Window.

(** A row of a window: the base row and the two columns added to it. *)
Record WindowRow := mkWindowRow {
  base : Row;
  Event : string;
  Delta_Week : Z
}.

(** The body of the loop of [get_holiday_windows] for one [date]. *)
Definition window (df : DataFrame) (date : Timestamp) (name : string)
    : list WindowRow :=
  let window :=
    Mask.index df
      (Mask.and
         (map (fun r => Date r >=? date - Timedelta_weeks 2) df)
         (map (fun r => Date r <=? date + Timedelta_weeks 2) df)) in
  map (fun r => mkWindowRow r name (td_days (Date r - date) / 7)) window.

(** [get_holiday_windows(holiday_dates, name)]: the windows, concatenated. *)
Definition get_holiday_windows (df : DataFrame) (holiday_dates : list Timestamp)
    (name : string) : list WindowRow :=
  List.concat (map (fun date => window df date name) holiday_dates).

Definition combined_trends (df : DataFrame) : list WindowRow :=
  List.concat
    [get_holiday_windows df
       [timestamp_of 2010 2 12; timestamp_of 2011 2 11;
        timestamp_of 2012 2 10; timestamp_of 2013 2 8] "Super Bowl";
     get_holiday_windows df
       [timestamp_of 2010 9 10; timestamp_of 2011 9 9;
        timestamp_of 2012 9 7; timestamp_of 2013 9 6] "Labor Day";
     get_holiday_windows df
       [timestamp_of 2010 11 26; timestamp_of 2011 11 25;
        timestamp_of 2012 11 23; timestamp_of 2013 11 29] "Thanksgiving";
     get_holiday_windows df
       [timestamp_of 2010 12 31; timestamp_of 2011 12 30;
        timestamp_of 2012 12 28; timestamp_of 2013 12 27] "Christmas"].

End Window.

(** ** Holiday lift (lines 487-531) *)

Module Lift.

Import HolidayType.

(** One dictionary of [results]. *)
Record LiftRow := mkLiftRow {
  Holiday_Type : string;
  Holiday_Week_Avg_Sales : option Q;
  Non_Holiday_Week_Avg_Sales : option Q;
  Sales_Lift_Percent : option Q
}.

(** Line 487: the rows of one store and one department. *)
Definition select (df : DataFrame) (store_holiday dept_holiday : Z) : DataFrame :=
  Mask.index df
    (Mask.and (map (fun r => Store r =? store_holiday) df)
              (map (fun r => Dept r =? dept_holiday) df)).

(** Line 502: the column [Holiday_Type], [get_holiday_type] row by row. *)
Definition Holiday_Type_column (df_filtered : DataFrame) : list string :=
  map get_holiday_type df_filtered.

(** [df_filtered[df_filtered['Holiday_Type'] == ht]['Weekly_Sales']]. *)
Definition sales_of (df_filtered : DataFrame) (ht : string) : list Q :=
  map Weekly_Sales
    (Mask.index df_filtered
       (map (fun t => String.eqb t ht) (Holiday_Type_column df_filtered))).

(** Line 505. *)
Definition holiday_types (df_filtered : DataFrame) : list string :=
  filter (fun ht => negb (String.eqb ht "None"))
         (Series.unique (Holiday_Type_column df_filtered)).

(** The body of the loop of lines 509-524 for one holiday type. *)
Definition result (df_filtered : DataFrame) (ht : string) : LiftRow :=
  let holiday_sales_avg := Series.mean (sales_of df_filtered ht) in
  let non_holiday_sales_avg := Series.mean (sales_of df_filtered "None") in
  let lift_pct :=
    match non_holiday_sales_avg with
    | None => None
    | Some n =>
        if Qeq_bool n 0 then None
        else
          match holiday_sales_avg with
          | Some h => Some ((h - n) / n * 100)%Q
          | None => None
          end
    end in
  mkLiftRow ht holiday_sales_avg non_holiday_sales_avg lift_pct.

Definition results (df_filtered : DataFrame) : list LiftRow :=
  map (result df_filtered) (holiday_types df_filtered).

Definition notna (r : LiftRow) : bool :=
  match Holiday_Week_Avg_Sales r, Non_Holiday_Week_Avg_Sales r,
        Sales_Lift_Percent r with
  | Some _, Some _, Some _ => true
  | _, _, _ => false
  end.

(** [pd.DataFrame(results).dropna()]. *)
Definition dropna (rows : list LiftRow) : list LiftRow := filter notna rows.


(** The sort key of a row that survived [dropna]. *)
Definition lift_value (r : LiftRow) : Q :=
  match Sales_Lift_Percent r with
  | Some v => v
  | None => 0
  end.

(** Lines 526-531: [out] is a value [df_lift] may have when the branch on
    [df_lift.empty] is left. *)
Definition df_lift (df : DataFrame) (store_holiday dept_holiday : Z)
    (out : list LiftRow) : Prop :=
  let df_filtered := select df store_holiday dept_holiday in
  let df_lift := dropna (results df_filtered) in
  match df_lift with
  | [] => out = []
  | _ :: _ => Sort.sort_values_desc lift_value df_lift out
  end.

End Lift.

(** ** Loading (lines 12-17) *)

Module Loader.

(** What a file holds, as [read_csv]'s tokenizer sees it: bytes it rejects,
    or a header line and the fields of each record. *)
Inductive Content :=
| Unparsable
| Csv (header : list string) (records : list (list string)).

(** The files there are, by path. *)
Definition FileSystem := string -> option Content.

Inductive Error := FileNotFoundError | ParserError | ValueError.

(** A cell of a loaded frame. *)
Inductive Cell := Text (s : string) | Stamp (t : Timestamp).

Record Frame := mkFrame {
  columns : list string;
  data : list (list Cell)
}.

Definition digit (c : ascii) : option Z :=
  let n := Z.of_nat (nat_of_ascii c) in
  if (48 <=? n) && (n <=? 57) then Some (n - 48) else None.

Fixpoint number (acc : Z) (cs : list ascii) : option Z :=
  match cs with
  | [] => Some acc
  | c :: cs' =>
      match digit c with
      | Some d => number (acc * 10 + d) cs'
      | None => None
      end
  end.

(** The date parser, restricted to the ISO form [YYYY-MM-DD]; pandas' parser
    accepts further forms. *)
Definition parse_date (s : string) : option Timestamp :=
  match list_ascii_of_string s with
  | [y1; y2; y3; y4; s1; m1; m2; s2; d1; d2] =>
      if Ascii.eqb s1 "-" && Ascii.eqb s2 "-" then
        match number 0 [y1; y2; y3; y4], number 0 [m1; m2], number 0 [d1; d2] with
        | Some y, Some m, Some d =>
            if (1 <=? m) && (m <=? 12) && (1 <=? d) && (d <=? 31)
            then Some (timestamp_of y m d) else None
        | _, _, _ => None
        end
      else None
  | _ => None
  end.

Fixpoint position (name : string) (header : list string) : option nat :=
  match header with
  | [] => None
  | h :: header' =>
      if String.eqb h name then Some O
      else option_map S (position name header')
  end.

(** [parse_dates=[name]]: the column becomes timestamps when every cell of it
    parses, and is left as text otherwise. *)
Definition parse_column (i : nat) (records : list (list string)) : list (list Cell) :=
  let texts := map (map Text) records in
  if forallb (fun r => match parse_date (nth i r "") with
                       | Some _ => true
                       | None => false
                       end) records
  then
    map (fun r =>
           (firstn i (map Text r) ++
            match parse_date (nth i r "") with
            | Some t => [Stamp t]
            | None => []
            end ++
            skipn (S i) (map Text r))%list) records
  else texts.

(** [pd.read_csv(path, parse_dates=[date_column])]. *)
Definition read_csv (fs : FileSystem) (path date_column : string) : Error + Frame :=
  match fs path with
  | None => inl FileNotFoundError
  | Some Unparsable => inl ParserError
  | Some (Csv header records) =>
      match position date_column header with
      | None => inl ValueError
      | Some i => inr (mkFrame header (parse_column i records))
      end
  end.

(** [load_data()]. *)
Definition load_data (fs : FileSystem) : Error + Frame :=
  let df := read_csv fs "merged_data.csv" "Date" in
  df.

(** The columns the specification requires of the input file. *)
Definition required_columns : list string :=
  ["Date"; "Store"; "Dept"; "Weekly_Sales"; "IsHoliday_x"; "IsSuperBowl";
   "IsLaborDay"; "IsThanksgiving"; "IsChristmas"; "Fuel_Price"; "Temperature";
   "Size"; "Type"].

End Loader.

(** ** Sidebar defaults and selector options (lines 27-32, 123-131) *)

Module Sidebar.

(** [Series.min()] and [Series.max()] of the [Date] column; [None] (NaT) for
    an empty table. *)
Fixpoint date_min (dates : list Timestamp) : option Timestamp :=
  match dates with
  | [] => None
  | t :: dates' =>
      match date_min dates' with
      | None => Some t
      | Some m => Some (Z.min t m)
      end
  end.

Fixpoint date_max (dates : list Timestamp) : option Timestamp :=
  match dates with
  | [] => None
  | t :: dates' =>
      match date_max dates' with
      | None => Some t
      | Some m => Some (Z.max t m)
      end
  end.

(** [Timestamp.date()]: the calendar day of a timestamp. The date widget
    stores its default [value] as dates. *)
Definition to_date (t : Timestamp) : date := t / NS_PER_DAY.

(** The value of [date_range] while the user has not touched the widget:
    [value=[df['Date'].min(), df['Date'].max()]]. *)
Definition default_date_range (df : DataFrame) : option (date * date) :=
  match date_min (map Date df), date_max (map Date df) with
  | Some lo, Some hi => Some (to_date lo, to_date hi)
  | _, _ => None
  end.

(** [Series.unique()] on an integer column: the distinct values in order of
    first appearance. *)
Fixpoint unique (l : list Z) : list Z :=
  match l with
  | [] => []
  | x :: l' => x :: filter (fun y => negb (y =? x)) (unique l')
  end.

(** [sorted(values)]: insertion into an ascending list, after the equal
    elements. *)
Fixpoint insert_sorted (x : Z) (l : list Z) : list Z :=
  match l with
  | [] => [x]
  | y :: l' => if x <? y then x :: l else y :: insert_sorted x l'
  end.

Definition sorted (l : list Z) : list Z := fold_left (fun acc x => insert_sorted x acc) l [].

(** [options=sorted(df['Store'].unique())] and
    [options=sorted(df['Dept'].unique())]. *)
Definition store_options (df : DataFrame) : list Z := sorted (unique (map Store df)).
Definition dept_options (df : DataFrame) : list Z := sorted (unique (map Dept df)).

End Sidebar.

(** ** Overview tab: KPI values and sales by week (lines 100-102, 189-194) *)

Module Overview.


Definition avg_sales (df_filtered : DataFrame) : option Q :=
  Series.mean (map Weekly_Sales df_filtered).



End Overview.

(** ** Store tab: sales by store size and by store type
       (lines 243-250, 273, 358-363) *)

Module StoreTab.

(** [df_size_filtered = df[df['Store'] == store_for_size]]. *)
Definition df_size_filtered (df : DataFrame) (store_for_size : Z) : DataFrame :=
  Mask.index df (map (fun r => Store r =? store_for_size) df).

(** [df_dept_filtered = df[df['Dept'] == dept_for_sales]]. *)
Definition df_dept_filtered (df : DataFrame) (dept_for_sales : Z) : DataFrame :=
  Mask.index df (map (fun r => Dept r =? dept_for_sales) df).






End StoreTab.

(** ** Holiday tab: comparisons by holiday flag, by holiday type and around
       the holidays (lines 383-390, 414-419, 453) *)

Module HolidayTab.

(** Grouping by two columns orders the keys by the first, then the second. *)
Definition pair_cmp (a b : Z * string) : comparison :=
  match int_cmp (fst a) (fst b) with
  | Eq => str_cmp (snd a) (snd b)
  | c => c
  end.

(** [holiday_comparison['IsHoliday_x'].replace({True: 'Holiday',
    False: 'Non-Holiday'})]. *)
Definition Holiday_Flag (df : DataFrame) : list string :=
  map (fun r => if IsHoliday_x r then "Holiday" else "Non-Holiday") df.

(** [holiday_comparison.groupby('Holiday_Flag')['Weekly_Sales'].mean()
    .reset_index()]. *)
Definition holiday_avg (df : DataFrame) : list (string * option Q) :=
  groupby_mean str_cmp fst (fun c => Weekly_Sales (snd c))
    (combine (Holiday_Flag df) df).


(** [trend_chart = combined_trends.groupby(['Delta_Week', 'Event'])
    ['Weekly_Sales'].mean().reset_index()]. *)
Definition trend_chart (df : DataFrame) : list ((Z * string) * option Q) :=
  groupby_mean pair_cmp
    (fun w => (Window.Delta_Week w, Window.Event w))
    (fun w => Weekly_Sales (Window.base w))
    (Window.combined_trends df).

End HolidayTab.

(** ** The anchor dates of [combined_trends] (lines 447-450) *)

Module Anchors.

(** The sixteen dates passed to [get_holiday_windows], in the order of the
    four calls. *)
Definition all : list Timestamp :=
  [timestamp_of 2010 2 12; timestamp_of 2011 2 11;
   timestamp_of 2012 2 10; timestamp_of 2013 2 8;
   timestamp_of 2010 9 10; timestamp_of 2011 9 9;
   timestamp_of 2012 9 7; timestamp_of 2013 9 6;
   timestamp_of 2010 11 26; timestamp_of 2011 11 25;
   timestamp_of 2012 11 23; timestamp_of 2013 11 29;
   timestamp_of 2010 12 31; timestamp_of 2011 12 30;
   timestamp_of 2012 12 28; timestamp_of 2013 12 27].

(** The mask of a window, for one row. *)
Definition near (anchor : Timestamp) (r : Row) : bool :=
  (Date r >=? anchor - Timedelta_weeks 2) &&
  (Date r <=? anchor + Timedelta_weeks 2).

(** The one date that two windows share: 2013-11-29 and 2013-12-27 are
    exactly four weeks apart. *)
Definition shared_date : Timestamp := timestamp_of 2013 12 13.

(** Two anchors whose windows share no date except possibly [shared]: more
    than four weeks apart, or exactly four weeks apart around [shared]. *)
Definition separate (shared a b : Timestamp) : bool :=
  (Timedelta_weeks 4 <? Z.abs (a - b)) ||
  ((Z.abs (a - b) =? Timedelta_weeks 4) && (a + b =? 2 * shared)).

Fixpoint pairwise_separate (shared : Timestamp) (anchors : list Timestamp) : bool :=
  match anchors with
  | [] => true
  | a :: anchors' =>
      forallb (separate shared a) anchors' && pairwise_separate shared anchors'
  end.

End Anchors.

(** ** Sample tables *)

Module Sample.

(** Two stores, two weeks, the second week a holiday week. *)
Definition row (day : date) (store dept : Z) (sales : Q) (holiday : bool)
    : Row :=
  mkRow (to_datetime day) store dept sales holiday false false false false
        (3 # 1) (50 # 1) 1000 "A" "February" 6 2010.

Definition table : DataFrame :=
  [row 14645 1 1 (100 # 1) false; row 14652 1 1 (150 # 1) true;
   row 14645 2 1 (80 # 1) false; row 14652 2 1 (90 # 1) true].

(** A week flagged both as Super Bowl and as Christmas week. *)
Definition two_flags : Row :=
  mkRow (to_datetime 14652) 1 1 (150 # 1) true true false false true
        (3 # 1) (50 # 1) 1000 "A" "February" 6 2010.

(** A Thanksgiving week. *)
Definition thanksgiving : Row :=
  mkRow (to_datetime 14939) 1 1 (200 # 1) true false false true false
        (3 # 1) (50 # 1) 1000 "A" "November" 47 2010.



(** Store 1, department 1: two ordinary weeks and a Thanksgiving week. *)
Definition lift_table : DataFrame := thanksgiving :: table.


(** Three weeks with temperatures 0, 30 and 120 and sales 1, 2 and 3. *)
Definition temp_row (temperature sales : Q) : Row :=
  mkRow (to_datetime 14645) 1 1 sales false false false false false
        (3 # 1) temperature 1000 "A" "February" 5 2010.

Definition temps : DataFrame :=
  [temp_row (0 # 1) (1 # 1); temp_row (30 # 1) (2 # 1); temp_row (120 # 1) (3 # 1)].

(** A [merged_data.csv] with a date and a sales column only. *)
Definition two_columns : Loader.FileSystem :=
  fun path =>
    if String.eqb path "merged_data.csv"
    then Some (Loader.Csv ["Date"; "Weekly_Sales"] [["2010-02-05"; "24924.5"]])
    else None.

End Sample.

(** * Part II: properties *)

(** ** Boolean indexing is filtering *)

Lemma mask_and_map {A : Type} (p q : A -> bool) (l : list A) :
  Mask.and (map p l) (map q l) = map (fun x => p x && q x) l.
Proof.
  induction l as [|x l IH]; simpl; [reflexivity | now rewrite IH].
Qed.

Lemma mask_index_map {A : Type} (p : A -> bool) (l : list A) :
  Mask.index l (map p l) = filter p l.
Proof.
  induction l as [|x l IH]; simpl; [reflexivity|].
  destruct (p x); now rewrite IH.
Qed.

Lemma in_mask_index {A : Type} (p : A -> bool) (l : list A) (x : A) :
  In x (Mask.index l (map p l)) <-> In x l /\ p x = true.
Proof. rewrite mask_index_map. apply filter_In. Qed.

Lemma filter_all {A : Type} (p : A -> bool) (l : list A) :
  (forall x, In x l -> p x = true) -> filter p l = l.
Proof.
  induction l as [|x l IH]; intros H; simpl; [reflexivity|].
  rewrite (H x (or_introl eq_refl)). f_equal.
  apply IH. intros y Hy. apply H. now right.
Qed.

(** ** The filter engine *)

Section FilterFacts.

Import Filter.

Variable df : DataFrame.
Variable date_range : date * date.

Lemma date_mask_map : date_mask df date_range = map (date_test date_range) df.
Proof. unfold date_mask. apply mask_and_map. Qed.

Lemma date_test_iff (r : Row) :
  date_test date_range r = true <-> date_in_range date_range r.
Proof. unfold date_test, date_in_range. rewrite andb_true_iff. lia. Qed.

Lemma in_holiday_step (view : DataFrame) (m : HolidayMode) (r : Row) :
  In r (holiday_step view (selectbox m)) <-> In r view /\ holiday_pred m r.
Proof.
  destruct m; unfold holiday_step; simpl.
  - tauto.
  - rewrite in_mask_index. now rewrite Bool.eqb_true_iff.
  - rewrite in_mask_index. now rewrite Bool.eqb_true_iff.
Qed.

Lemma in_df_filtered (m : HolidayMode) (r : Row) :
  In r (df_filtered df date_range (selectbox m)) <->
  In r df /\ date_in_range date_range r /\ holiday_pred m r.
Proof.
  unfold df_filtered. rewrite in_holiday_step, date_mask_map, in_mask_index.
  rewrite date_test_iff. tauto.
Qed.

Lemma in_df_chart_filtered (store dept : Z) (m : HolidayMode) (r : Row) :
  In r (df_chart_filtered df store dept date_range (selectbox m)) <->
  In r df /\ Store r = store /\ Dept r = dept /\
  date_in_range date_range r /\ holiday_pred m r.
Proof.
  unfold df_chart_filtered. rewrite in_holiday_step.
  rewrite !mask_and_map, in_mask_index.
  rewrite !andb_true_iff, !Z.eqb_eq.
  unfold date_in_range. intuition lia.
Qed.

Lemma df_filtered_all_unrestricted :
  (forall r, In r df -> date_in_range date_range r) ->
  df_filtered df date_range (selectbox All) = df.
Proof.
  intros H. unfold df_filtered, holiday_step; simpl.
  rewrite date_mask_map, mask_index_map.
  apply filter_all. intros r Hr. apply date_test_iff. now apply H.
Qed.

End FilterFacts.

(** C1. Filter conjunction correctness: for every base table, date range and
    holiday mode, a row is in the filtered view [df_filtered] exactly when it
    is a row of the table whose date lies within the inclusive bounds and that
    satisfies the holiday predicate of the mode; a row is in
    [df_chart_filtered] exactly when it moreover has the selected store and
    department; and with mode All and date bounds that every row of the table
    satisfies, [df_filtered] is the input table itself. *)
Theorem filter_conjunction_correct
    (df : DataFrame) (date_range : date * date) (m : Filter.HolidayMode)
    (store dept : Z) :
  (forall r,
      In r (Filter.df_filtered df date_range (Filter.selectbox m)) <->
      In r df /\ Filter.date_in_range date_range r /\ Filter.holiday_pred m r) /\
  (forall r,
      In r (Filter.df_chart_filtered df store dept date_range (Filter.selectbox m)) <->
      In r df /\ Store r = store /\ Dept r = dept /\
      Filter.date_in_range date_range r /\ Filter.holiday_pred m r) /\
  ((forall r, In r df -> Filter.date_in_range date_range r) ->
   Filter.df_filtered df date_range (Filter.selectbox Filter.All) = df).
Proof.
  split; [|split].
  - intros r. apply in_df_filtered.
  - intros r. apply in_df_chart_filtered.
  - apply df_filtered_all_unrestricted.
Qed.

Lemma filter_conjunction_witness :
  Filter.df_filtered Sample.table (14645, 14652) "Yes" =
    [Sample.row 14652 1 1 (150 # 1) true; Sample.row 14652 2 1 (90 # 1) true] /\
  Filter.df_filtered Sample.table (14645, 14652) "All" = Sample.table.
Proof.
  split; [reflexivity|].
  apply (filter_conjunction_correct Sample.table (14645, 14652) Filter.All 1 1).
  intros r Hr. unfold Filter.date_in_range.
  simpl in Hr. decompose [or] Hr; subst; simpl; try contradiction;
    unfold to_datetime, NS_PER_DAY; lia.
Defined.

(** ** Holiday-type classification *)

Section HolidayTypeFacts.

Import HolidayType.

Lemma loc_assign_map (f : Row -> string) (p : Row -> bool) (value : string)
    (df : DataFrame) :
  loc_assign (map f df) (map p df) value =
  map (fun r => if p r then value else f r) df.
Proof.
  induction df as [|r df IH]; simpl; [reflexivity | now rewrite IH].
Qed.

Lemma df_holidays_rowwise (df : DataFrame) :
  df_holidays_Holiday_Type df =
  map (fun row => first_true (by_last_assignment row)) df.
Proof.
  unfold df_holidays_Holiday_Type.
  rewrite !loc_assign_map. apply map_ext. intros row. simpl.
  reflexivity.
Qed.

Lemma first_true_in (flags : list (bool * string)) :
  Forall (fun f => In (snd f) labels) flags -> In (first_true flags) labels.
Proof.
  induction 1 as [|[b l] flags Hl _ IH]; simpl.
  - unfold labels. simpl. tauto.
  - destruct b; assumption.
Qed.

Lemma by_priority_labels (row : Row) :
  Forall (fun f => In (snd f) labels) (by_priority row).
Proof. unfold by_priority, labels. repeat constructor; simpl; tauto. Qed.

Lemma by_last_assignment_labels (row : Row) :
  Forall (fun f => In (snd f) labels) (by_last_assignment row).
Proof. unfold by_last_assignment, labels. repeat constructor; simpl; tauto. Qed.

Lemma get_holiday_type_priority (row : Row) :
  get_holiday_type row = first_true (by_priority row).
Proof. reflexivity. Qed.


End HolidayTypeFacts.

(** C2, as the code has it. Classification is total at both places: every
    label [get_holiday_type] returns and every cell of
    [df_holidays['Holiday_Type']] is one of Super Bowl, Labor Day,
    Thanksgiving, Christmas, None. [get_holiday_type] returns the label of the
    first true flag in the order Super Bowl > Labor Day > Thanksgiving >
    Christmas; the column of [df_holidays] holds, row by row, the label of the
    last assignment whose flag is true, that is the first true flag in the
    order Christmas > Thanksgiving > Labor Day > Super Bowl. *)
Theorem holiday_type_total_and_priority (df : DataFrame) (row : Row) :
  In (HolidayType.get_holiday_type row) HolidayType.labels /\
  Forall (fun label => In label HolidayType.labels)
         (HolidayType.df_holidays_Holiday_Type df) /\
  HolidayType.get_holiday_type row =
    HolidayType.first_true (HolidayType.by_priority row) /\
  HolidayType.df_holidays_Holiday_Type df =
    map (fun r => HolidayType.first_true (HolidayType.by_last_assignment r)) df.
Proof.
  repeat split.
  - rewrite get_holiday_type_priority.
    apply first_true_in, by_priority_labels.
  - rewrite df_holidays_rowwise. apply Forall_map, Forall_forall.
    intros r _. apply first_true_in, by_last_assignment_labels.
  - apply df_holidays_rowwise.
Qed.

(** C2 as stated fails for [df_holidays]: on a row flagged both Super Bowl and
    Christmas the column holds Christmas, not the label Super Bowl that the
    stated priority order gives. *)
Lemma holiday_priority_counterexample :
  IsSuperBowl Sample.two_flags = true /\
  IsChristmas Sample.two_flags = true /\
  HolidayType.first_true (HolidayType.by_priority Sample.two_flags) = "Super Bowl" /\
  HolidayType.df_holidays_Holiday_Type [Sample.two_flags] = ["Christmas"] /\
  HolidayType.df_holidays_Holiday_Type [Sample.two_flags] <>
    [HolidayType.first_true (HolidayType.by_priority Sample.two_flags)].
Proof.
  repeat split. discriminate.
Qed.



(** ** Grouping *)

(** The comparisons the program groups by are strict total orders. *)

Lemma str_cmp_strict : StrictCmp str_cmp.
Proof.
  assert (Hirr : forall a, ~ String_as_OT.lt a a)
    by (intros a; apply (@irreflexivity _ _ (@StrictOrder_Irreflexive _ _ String_as_OT.lt_strorder))).
  assert (Htr : forall a b c, String_as_OT.lt a b -> String_as_OT.lt b c -> String_as_OT.lt a c)
    by (intros a b c; apply (@transitivity _ _ (@StrictOrder_Transitive _ _ String_as_OT.lt_strorder))).
  unfold str_cmp. split.
  - intros a b. destruct (String_as_OT.compare_spec a b) as [H|H|H]; split;
      unfold String_as_OT.eq in *; intros E; try discriminate;
      try assumption; try reflexivity;
      subst; exfalso; eapply Hirr; eassumption.
  - intros a b.
    destruct (String_as_OT.compare_spec a b) as [H|H|H],
             (String_as_OT.compare_spec b a) as [H'|H'|H']; simpl;
      try reflexivity; unfold String_as_OT.eq in *; subst; exfalso;
      solve [ eapply Hirr; eassumption
            | eapply Hirr; eapply Htr; eassumption ].
  - intros a b c. apply Htr.
Qed.

Lemma int_cmp_strict : StrictCmp int_cmp.
Proof.
  unfold int_cmp. split.
  - intros a b. apply Z.compare_eq_iff.
  - intros a b. apply Z.compare_antisym.
  - intros a b c. rewrite !Z.compare_lt_iff. lia.
Qed.

Section GroupByFacts.

Context {K : Type} (cmp : K -> K -> comparison) (Hcmp : StrictCmp cmp).

Lemma cmp_refl (a : K) : cmp a a = Eq.
Proof. now apply (cmp_eq _ Hcmp). Qed.

Lemma cmp_gt_lt (a b : K) : cmp a b = Gt -> cmp b a = Lt.
Proof.
  intros H. rewrite (cmp_antisym _ Hcmp), H. reflexivity.
Qed.

Lemma key_eqb_eq (a b : K) : key_eqb cmp a b = true <-> a = b.
Proof.
  unfold key_eqb. rewrite <- (cmp_eq _ Hcmp).
  destruct (cmp a b); split; congruence.
Qed.

Lemma in_insert_key (k k' : K) (ks : list K) :
  In k (insert_key cmp k' ks) <-> k = k' \/ In k ks.
Proof.
  induction ks as [|x ks IH]; simpl.
  - intuition.
  - destruct (cmp k' x) eqn:E; simpl.
    + apply (cmp_eq _ Hcmp) in E. subst. intuition.
    + intuition.
    + rewrite IH. intuition.
Qed.

Lemma in_group_keys (k : K) (keys : list K) :
  In k (group_keys cmp keys) <-> In k keys.
Proof.
  induction keys as [|x keys IH]; simpl; [tauto|].
  rewrite in_insert_key, IH. intuition.
Qed.

Lemma insert_key_sorted (k : K) (ks : list K) :
  ascending cmp ks -> ascending cmp (insert_key cmp k ks).
Proof.
  unfold ascending.
  induction 1 as [|x ks Hs IH Hx]; simpl.
  - repeat constructor.
  - destruct (cmp k x) eqn:E.
    + now constructor.
    + constructor; [now constructor|].
      constructor; [exact E|].
      rewrite Forall_forall in *. intros y Hy.
      eapply (cmp_trans _ Hcmp); [exact E | now apply Hx].
    + constructor; [exact IH|].
      rewrite Forall_forall in *. intros y Hy.
      apply in_insert_key in Hy. destruct Hy as [->|Hy].
      * now apply cmp_gt_lt.
      * now apply Hx.
Qed.

Lemma group_keys_sorted (keys : list K) :
  ascending cmp (group_keys cmp keys).
Proof.
  induction keys as [|x keys IH]; simpl; [constructor|].
  now apply insert_key_sorted.
Qed.

Lemma groupby_keys {A : Type} (key : A -> K) (df : list A) :
  map fst (groupby cmp key df) = group_keys cmp (map key df).
Proof.
  unfold groupby. rewrite map_map. simpl. apply map_id.
Qed.

Lemma in_groupby_keys {A : Type} (key : A -> K) (df : list A) (k : K) :
  In k (map fst (groupby cmp key df)) <-> exists r, In r df /\ key r = k.
Proof.
  rewrite groupby_keys, in_group_keys, in_map_iff.
  split; intros [r [H1 H2]]; exists r; tauto.
Qed.


Lemma in_groupby_mean {A : Type} (key : A -> K) (measure : A -> Q)
    (df : list A) (k : K) (m : option Q) :
  In (k, m) (groupby_mean cmp key measure df) ->
  (exists r, In r df /\ key r = k) /\
  m = Series.mean (map measure (filter (fun r => key_eqb cmp (key r) k) df)).
Proof.
  unfold groupby_mean, groupby. rewrite map_map. cbn [fst snd].
  rewrite in_map_iff. intros [k' [E Hk]]. inversion E; subst; clear E.
  split; [|reflexivity].
  apply in_group_keys, in_map_iff in Hk.
  destruct Hk as [r [E Hr]]. now exists r.
Qed.

End GroupByFacts.

Lemma str_key_eqb (a b : string) : key_eqb str_cmp a b = String.eqb a b.
Proof.
  apply eq_true_iff_eq.
  rewrite (key_eqb_eq str_cmp str_cmp_strict), String.eqb_eq. tauto.
Qed.


(** ** Total sales by month *)




(** ** Sales around holidays *)

Section WindowFacts.

Import Window.

Lemma week_ns : Timedelta_weeks 2 = 2 * (7 * NS_PER_DAY).
Proof. reflexivity. Qed.

(** Whole days, then whole weeks of days, is whole weeks. *)
Lemma delta_week_floor (t : Timedelta) :
  td_days t / 7 = t / (7 * NS_PER_DAY).
Proof.
  unfold td_days. rewrite Z.mul_comm.
  apply Z.div_div; [discriminate | reflexivity].
Qed.

Lemma in_window (df : DataFrame) (date : Timestamp) (name : string) (w : WindowRow) :
  In w (window df date name) <->
  In (base w) df /\
  date - Timedelta_weeks 2 <= Date (base w) <= date + Timedelta_weeks 2 /\
  Event w = name /\
  Delta_Week w = (Date (base w) - date) / (7 * NS_PER_DAY).
Proof.
  unfold window. rewrite mask_and_map, in_map_iff. split.
  - intros [r [E Hr]]. apply in_mask_index in Hr. destruct Hr as [Hr Ht].
    subst w. simpl. apply andb_true_iff in Ht.
    repeat split; try tauto; try lia. apply delta_week_floor.
  - intros [Hr [Hd [He Hw]]]. exists (base w). split.
    + destruct w as [b e d]. simpl in *. subst e d.
      f_equal. apply delta_week_floor.
    + apply in_mask_index. split; [exact Hr|].
      apply andb_true_iff. lia.
Qed.

Lemma delta_week_bounds (x : Z) :
  - Timedelta_weeks 2 <= x <= Timedelta_weeks 2 ->
  -2 <= x / (7 * NS_PER_DAY) <= 2.
Proof.
  rewrite week_ns. intros [Hlo Hhi].
  assert (Hpos : 0 < 7 * NS_PER_DAY) by reflexivity.
  split.
  - apply Z.div_le_lower_bound; [exact Hpos | lia].
  - apply Z.div_le_upper_bound; [exact Hpos | lia].
Qed.

Lemma window_single (r : Row) (date : Timestamp) (name : string) :
  window [r] date name =
  if (Date r >=? date - Timedelta_weeks 2) && (Date r <=? date + Timedelta_weeks 2)
  then [mkWindowRow r name ((Date r - date) / (7 * NS_PER_DAY))]
  else [].
Proof.
  unfold window. simpl.
  destruct ((Date r >=? date - Timedelta_weeks 2) &&
            (Date r <=? date + Timedelta_weeks 2)); simpl; [|reflexivity].
  now rewrite delta_week_floor.
Qed.

Lemma in_get_holiday_windows (df : DataFrame) (holiday_dates : list Timestamp)
    (name : string) (w : WindowRow) :
  In w (get_holiday_windows df holiday_dates name) <->
  exists anchor,
    In anchor holiday_dates /\ In (base w) df /\
    anchor - Timedelta_weeks 2 <= Date (base w) <= anchor + Timedelta_weeks 2 /\
    Event w = name /\
    Delta_Week w = (Date (base w) - anchor) / (7 * NS_PER_DAY).
Proof.
  unfold get_holiday_windows. rewrite in_concat. split.
  - intros [l [Hl Hw]]. apply in_map_iff in Hl.
    destruct Hl as [anchor [E Ha]]. subst l.
    exists anchor. split; [exact Ha|]. now apply in_window.
  - intros [anchor [Ha Hw]]. exists (window df anchor name).
    split; [apply in_map_iff; now exists anchor | now apply in_window].
Qed.

Lemma get_holiday_windows_bounds (df : DataFrame) (holiday_dates : list Timestamp)
    (name : string) (w : WindowRow) :
  In w (get_holiday_windows df holiday_dates name) ->
  In (base w) df /\ Event w = name /\ -2 <= Delta_Week w <= 2.
Proof.
  intros Hw. apply in_get_holiday_windows in Hw.
  destruct Hw as [anchor [_ [Hb [Hd [He ->]]]]].
  repeat split; try assumption; apply delta_week_bounds; lia.
Qed.

Lemma combined_trends_bounds (df : DataFrame) (w : WindowRow) :
  In w (combined_trends df) ->
  In (base w) df /\
  In (Event w) ["Super Bowl"; "Labor Day"; "Thanksgiving"; "Christmas"] /\
  -2 <= Delta_Week w <= 2.
Proof.
  unfold combined_trends. rewrite in_concat. intros [l [Hl Hw]].
  simpl in Hl. decompose [or] Hl; try contradiction; subst l;
    apply get_holiday_windows_bounds in Hw; destruct Hw as [Hb [He Hd]];
    rewrite He; simpl; tauto.
Qed.

End WindowFacts.

(** C5. A row is in the windows of [get_holiday_windows] exactly when it is a
    row of the table whose date lies within two weeks before or after one of
    the anchor dates, both ends included; it then carries the event name and
    [Delta_Week = floor ((date - anchor) / 7 days)], rounded towards minus
    infinity, which lies between -2 and 2; so does every row of
    [combined_trends], under one of the four holiday names. With the anchor
    2010-02-12, a row dated 2010-01-29 gets -2, a row dated 2010-02-26 gets
    +2, and rows dated 2010-01-28 or 2010-02-27 are not selected. *)
Theorem window_offset_correct (df : DataFrame) (holiday_dates : list Timestamp)
    (name : string) :
  (forall w,
      In w (Window.get_holiday_windows df holiday_dates name) <->
      exists anchor,
        In anchor holiday_dates /\ In (Window.base w) df /\
        anchor - Timedelta_weeks 2 <= Date (Window.base w)
          <= anchor + Timedelta_weeks 2 /\
        Window.Event w = name /\
        Window.Delta_Week w = (Date (Window.base w) - anchor) / (7 * NS_PER_DAY)) /\
  (forall w,
      In w (Window.get_holiday_windows df holiday_dates name) ->
      -2 <= Window.Delta_Week w <= 2) /\
  (forall w,
      In w (Window.combined_trends df) ->
      In (Window.base w) df /\
      In (Window.Event w) ["Super Bowl"; "Labor Day"; "Thanksgiving"; "Christmas"] /\
      -2 <= Window.Delta_Week w <= 2) /\
  (forall r,
      (Date r = timestamp_of 2010 1 29 ->
       Window.get_holiday_windows [r] [timestamp_of 2010 2 12] name =
         [Window.mkWindowRow r name (-2)]) /\
      (Date r = timestamp_of 2010 2 26 ->
       Window.get_holiday_windows [r] [timestamp_of 2010 2 12] name =
         [Window.mkWindowRow r name 2]) /\
      (Date r = timestamp_of 2010 1 28 \/ Date r = timestamp_of 2010 2 27 ->
       Window.get_holiday_windows [r] [timestamp_of 2010 2 12] name = [])).
Proof.
  split; [|split; [|split]].
  - intros w. apply in_get_holiday_windows.
  - intros w Hw. now apply get_holiday_windows_bounds in Hw.
  - intros w. apply combined_trends_bounds.
  - intros r. unfold Window.get_holiday_windows. simpl.
    rewrite app_nil_r, window_single.
    repeat split.
    + intros ->. reflexivity.
    + intros ->. reflexivity.
    + intros [-> | ->]; reflexivity.
Qed.

(** ** Descending orderings *)



Section SortFacts.

Context {A : Type} (by_ : A -> Q).






End SortFacts.

(** ** Top departments *)






(** ** Holiday lift *)

Section LiftFacts.

Import HolidayType Lift.

Variable df_filtered : DataFrame.









End LiftFacts.




(** ** Bin edges *)

Section CutFacts.

Import Cut.

Variables (mn mx : Q) (nbins : nat).
Hypothesis Hrange : (mn < mx)%Q.
Hypothesis Hbins : (1 <= nbins)%nat.








End CutFacts.





(** ** Average sales by bin *)

Lemma groupby_mean_keys {A : Type} (key : A -> string) (measure : A -> Q)
    (df : list A) :
  map fst (groupby_mean str_cmp key measure df) = group_keys str_cmp (map key df).
Proof.
  unfold groupby_mean. rewrite map_map. cbn [fst].
  apply (groupby_keys str_cmp).
Qed.

Lemma bin_column_length (attribute : Row -> Q) (nbins : nat) (df : DataFrame)
    (column : list string) :
  Binned.bin_column attribute nbins df = Some column ->
  List.length column = List.length df.
Proof.
  unfold Binned.bin_column, Label.cut.
  destruct (Cut.nbins_to_bins (map attribute df) nbins); [|discriminate].
  simpl. intros E. inversion E. now rewrite !length_map.
Qed.

Lemma map_fst_combine {A B : Type} (l : list A) (l' : list B) :
  List.length l = List.length l' -> map fst (combine l l') = l.
Proof.
  revert l'. induction l as [|a l IH]; intros [|b l']; simpl;
    try discriminate; [reflexivity|].
  intros E. f_equal. apply IH. now inversion E.
Qed.

(** C9, as the code has it. The grouping key is the string of the interval,
    so the (range, average) entries of [fuel_sales] and [temp_sales] are
    listed in strictly ascending code-point order of those strings, one entry
    for each string that occurs in the bin column, with the mean of the weekly
    sales of the rows that carry it. *)
Theorem binned_sales_order (attribute : Row -> Q) (nbins : nat)
    (df : DataFrame) (out : list (string * option Q)) :
  Binned.binned_sales attribute nbins df = Some out ->
  exists column,
    Binned.bin_column attribute nbins df = Some column /\
    List.length column = List.length df /\
    StronglySorted (fun a b => str_cmp a b = Lt) (map fst out) /\
    (forall label, In label (map fst out) <-> In label column) /\
    (forall label average,
        In (label, average) out ->
        average =
        Series.mean
          (map (fun c => Weekly_Sales (snd c))
               (filter (fun c => String.eqb (fst c) label) (combine column df)))).
Proof.
  unfold Binned.binned_sales.
  destruct (Binned.bin_column attribute nbins df) as [column|] eqn:E;
    [|discriminate].
  simpl. intros H. inversion H; subst out; clear H.
  exists column. apply bin_column_length in E.
  split; [reflexivity | split; [exact E | split; [|split]]].
  - rewrite groupby_mean_keys.
    apply (group_keys_sorted str_cmp str_cmp_strict).
  - intros label. rewrite groupby_mean_keys.
    rewrite (in_group_keys str_cmp str_cmp_strict).
    rewrite map_fst_combine; [tauto | exact E].
  - intros label average H.
    apply (in_groupby_mean str_cmp str_cmp_strict) in H.
    destruct H as [_ ->]. do 2 f_equal. apply filter_ext. intros c.
    apply str_key_eqb.
Qed.

Lemma binned_sales_order_witness :
  StronglySorted (fun a b => str_cmp a b = Lt)
    ["(-0.12, 20.0]"; "(100.0, 120.0]"; "(20.0, 40.0]"].
Proof.
  destruct (binned_sales_order Temperature 6 Sample.temps
              [("(-0.12, 20.0]", Some (1 # 1)); ("(100.0, 120.0]", Some (3 # 1));
               ("(20.0, 40.0]", Some (2 # 1))] eq_refl)
    as [column [_ [_ [Hsorted _]]]].
  exact Hsorted.
Defined.

(** C9 as stated fails: with temperatures 0, 30 and 120 the six bins start
    at -0.12, 20, 40, 60, 80 and 100; [temp_sales] lists the bin that starts at
    100 before the bin that starts at 20. *)
Lemma binned_order_counterexample :
  Binned.temp_sales Sample.temps =
    Some [(Label.interval_str (Label.mkInterval (-12 # 100) (20 # 1)), Some (1 # 1));
          (Label.interval_str (Label.mkInterval (100 # 1) (120 # 1)), Some (3 # 1));
          (Label.interval_str (Label.mkInterval (20 # 1) (40 # 1)), Some (2 # 1))] /\
  ~ (Label.left (Label.mkInterval (100 # 1) (120 # 1)) <=
     Label.left (Label.mkInterval (20 # 1) (40 # 1)))%Q.
Proof.
  split; [reflexivity|].
  unfold Qle. simpl. lia.
Qed.

(** ** Loading *)

Lemma position_none (name : string) (header : list string) :
  Loader.position name header = None <-> ~ In name header.
Proof.
  induction header as [|h header IH]; simpl; [tauto|].
  destruct (String.eqb_spec h name) as [->|Hne].
  - split; [discriminate | intros H; exfalso; apply H; now left].
  - destruct (Loader.position name header); simpl.
    + split; [discriminate|]. intros H. exfalso.
      assert (In name header) by
        (destruct (in_dec string_dec name header) as [Hi|Hi];
         [exact Hi | apply IH in Hi; discriminate]).
      tauto.
    + split; [|reflexivity]. intros _ [E|Hi]; [congruence|].
      now apply IH in Hi.
Qed.

Lemma parse_column_length (i : nat) (records : list (list string)) :
  List.length (Loader.parse_column i records) = List.length records.
Proof.
  unfold Loader.parse_column.
  destruct (forallb _ records); now rewrite !length_map.
Qed.

(** C8, as the code has it. [load_data] fails when [merged_data.csv] is
    missing, when its bytes cannot be tokenized, and when it has no [Date]
    column. In every other case it succeeds and returns the columns of the
    file as they are, one row for each record: no other required column is
    looked for, and a [Date] cell that does not parse is no failure. *)
Theorem load_data_failures (fs : Loader.FileSystem) :
  (fs "merged_data.csv" = None ->
   Loader.load_data fs = inl Loader.FileNotFoundError) /\
  (fs "merged_data.csv" = Some Loader.Unparsable ->
   Loader.load_data fs = inl Loader.ParserError) /\
  (forall header records,
      fs "merged_data.csv" = Some (Loader.Csv header records) ->
      (~ In "Date" header -> Loader.load_data fs = inl Loader.ValueError) /\
      (In "Date" header ->
       exists data,
         Loader.load_data fs = inr (Loader.mkFrame header data) /\
         List.length data = List.length records)).
Proof.
  unfold Loader.load_data, Loader.read_csv.
  split; [|split].
  - now intros ->.
  - now intros ->.
  - intros header records ->. split.
    + intros H. apply position_none in H. now rewrite H.
    + intros H. destruct (Loader.position "Date" header) as [i|] eqn:E.
      * exists (Loader.parse_column i records).
        split; [reflexivity | apply parse_column_length].
      * apply position_none in E. contradiction.
Qed.

Lemma load_data_failures_witness :
  exists data,
    Loader.load_data Sample.two_columns =
      inr (Loader.mkFrame ["Date"; "Weekly_Sales"] data) /\
    List.length data = 1%nat.
Proof.
  apply (proj2 (proj2 (proj2 (load_data_failures Sample.two_columns))
                 ["Date"; "Weekly_Sales"] [["2010-02-05"; "24924.5"]]
                 eq_refl)).
  simpl. tauto.
Defined.

(** C8 as stated fails: a file with a [Date] and a [Weekly_Sales] column
    only lacks the required column [Store], and is loaded. *)
Lemma load_missing_column_counterexample :
  In "Store" Loader.required_columns /\
  Sample.two_columns "merged_data.csv" =
    Some (Loader.Csv ["Date"; "Weekly_Sales"] [["2010-02-05"; "24924.5"]]) /\
  ~ In "Store" ["Date"; "Weekly_Sales"] /\
  Loader.load_data Sample.two_columns =
    inr (Loader.mkFrame ["Date"; "Weekly_Sales"]
           [[Loader.Stamp (timestamp_of 2010 2 5); Loader.Text "24924.5"]]).
Proof.
  split; [simpl; tauto | split; [reflexivity | split; [|reflexivity]]].
  simpl. intros [H|[H|[]]]; discriminate.
Qed.

(** ** The definitions at work *)

Example anchor_2010_02_12 : days_from_civil 2010 2 12 = 14652.
Proof. reflexivity. Qed.

Example epoch : timestamp_of 1970 1 1 = 0.
Proof. reflexivity. Qed.

Example two_weeks_before : timestamp_of 2010 2 12 - Timedelta_weeks 2 = timestamp_of 2010 1 29.
Proof. reflexivity. Qed.

Example monthly_sales_empty :
  Monthly.monthly_sales [] = map (fun month => (month, None)) Monthly.monthly_order.
Proof. reflexivity. Qed.

Example monthly_sales_sample :
  nth 1 (Monthly.monthly_sales Sample.table) ("", None) = ("February", Some (420 # 1)).
Proof. reflexivity. Qed.

Example holiday_only_sample :
  Series.sum (map Weekly_Sales (Filter.df_filtered Sample.table (14645, 14652) "Yes")) =
  (240 # 1).
Proof. reflexivity. Qed.

Example inverted_range_empty :
  Filter.df_filtered Sample.table (14652, 14645) "All" = [].
Proof. reflexivity. Qed.

Example temperature_labels :
  Binned.bin_column Temperature 6 Sample.temps =
  Some ["(-0.12, 20.0]"; "(20.0, 40.0]"; "(100.0, 120.0]"].
Proof. reflexivity. Qed.

Example constant_column_labels :
  Binned.bin_column Fuel_Price 5 Sample.table =
  Some ["(2.999, 3.001]"; "(2.999, 3.001]"; "(2.999, 3.001]"; "(2.999, 3.001]"].
Proof. reflexivity. Qed.

Example cut_empty : Binned.fuel_bins [] = None.
Proof. reflexivity. Qed.

Example lift_sample :
  map Lift.Holiday_Type (Lift.results (Lift.select Sample.lift_table 1 1)) =
    ["Thanksgiving"] /\
  Forall (fun r => (Lift.lift_value r == 60)%Q)
         (Lift.results (Lift.select Sample.lift_table 1 1)).
Proof. split; [reflexivity | repeat constructor]. Qed.

Example lift_empty_selection (out : list Lift.LiftRow) :
  Lift.df_lift Sample.lift_table 7 7 out <-> out = [].
Proof. reflexivity. Qed.

(** * Part III: further properties of the dashboard code *)

(** ** The filter engine on unusual selections *)

Lemma filter_none {A : Type} (p : A -> bool) (l : list A) :
  (forall x, In x l -> p x = false) -> filter p l = [].
Proof.
  induction l as [|x l IH]; intros H; simpl; [reflexivity|].
  rewrite (H x (or_introl eq_refl)). apply IH. intros y Hy. apply H. now right.
Qed.

Lemma holiday_step_nil (holiday_filter : string) :
  Filter.holiday_step [] holiday_filter = [].
Proof.
  unfold Filter.holiday_step.
  destruct (String.eqb holiday_filter "Yes"), (String.eqb holiday_filter "No");
    reflexivity.
Qed.

(** The holiday step is a filter, whatever string the selector holds. *)
Lemma holiday_step_filter (view : DataFrame) (holiday_filter : string) :
  Filter.holiday_step view holiday_filter =
  filter (fun r =>
            if String.eqb holiday_filter "Yes" then Bool.eqb (IsHoliday_x r) true
            else if String.eqb holiday_filter "No" then Bool.eqb (IsHoliday_x r) false
            else true) view.
Proof.
  unfold Filter.holiday_step.
  destruct (String.eqb holiday_filter "Yes");
    [apply mask_index_map|].
  destruct (String.eqb holiday_filter "No");
    [apply mask_index_map|].
  symmetry. apply filter_all. reflexivity.
Qed.

Lemma filter_filter {A : Type} (p q : A -> bool) (l : list A) :
  filter p (filter q l) = filter (fun x => q x && p x) l.
Proof.
  induction l as [|x l IH]; simpl; [reflexivity|].
  destruct (q x); simpl; [destruct (p x)|]; now rewrite IH.
Qed.

Lemma df_filtered_filter (df : DataFrame) (date_range : date * date)
    (holiday_filter : string) :
  Filter.df_filtered df date_range holiday_filter =
  Filter.holiday_step (filter (Filter.date_test date_range) df) holiday_filter.
Proof.
  unfold Filter.df_filtered. now rewrite date_mask_map, mask_index_map.
Qed.

Lemma df_chart_filtered_filter (df : DataFrame) (store dept : Z)
    (date_range : date * date) (holiday_filter : string) :
  Filter.df_chart_filtered df store dept date_range holiday_filter =
  Filter.holiday_step
    (filter (fun r => (Store r =? store) && (Dept r =? dept) &&
                      Filter.date_test date_range r) df)
    holiday_filter.
Proof.
  unfold Filter.df_chart_filtered. rewrite !mask_and_map, mask_index_map.
  f_equal. apply filter_ext. intros r. unfold Filter.date_test.
  now rewrite !andb_assoc.
Qed.

(** X1. A date range whose start lies after its end selects nothing: both
    filtered views are empty, for every table, store, department and holiday
    selection. *)
Theorem inverted_date_range_empty (df : DataFrame) (date_range : date * date)
    (holiday_filter : string) (store dept : Z) :
  snd date_range < fst date_range ->
  Filter.df_filtered df date_range holiday_filter = [] /\
  Filter.df_chart_filtered df store dept date_range holiday_filter = [].
Proof.
  intros Hinv.
  assert (Hno : forall r, Filter.date_test date_range r = false).
  { intros r. unfold Filter.date_test, to_datetime.
    assert (snd date_range * NS_PER_DAY < fst date_range * NS_PER_DAY)
      by (apply Z.mul_lt_mono_pos_r; [reflexivity | exact Hinv]).
    rewrite Z.geb_leb.
    destruct (Z.leb_spec (fst date_range * NS_PER_DAY) (Date r)) as [Hge|Hlt];
      [|reflexivity].
    simpl. apply Z.leb_gt. lia. }
  split.
  - rewrite df_filtered_filter, filter_none; [apply holiday_step_nil|].
    intros r _. apply Hno.
  - rewrite df_chart_filtered_filter, filter_none; [apply holiday_step_nil|].
    intros r _. rewrite Hno. apply andb_false_r.
Qed.

Lemma inverted_date_range_empty_witness :
  Filter.df_filtered Sample.table (14652, 14645) "Yes" = [] /\
  Filter.df_chart_filtered Sample.table 1 1 (14652, 14645) "Yes" = [].
Proof.
  apply (inverted_date_range_empty Sample.table (14652, 14645) "Yes" 1 1).
  simpl. lia.
Defined.

(** X2. The weekly-sales chart shows the sidebar view restricted to the
    selected store and department: [df_chart_filtered] is [df_filtered] with
    the rows of other stores and departments removed, in the same order. *)
Theorem chart_view_restricts_sidebar_view (df : DataFrame) (store dept : Z)
    (date_range : date * date) (holiday_filter : string) :
  Filter.df_chart_filtered df store dept date_range holiday_filter =
  filter (fun r => (Store r =? store) && (Dept r =? dept))
         (Filter.df_filtered df date_range holiday_filter).
Proof.
  rewrite df_chart_filtered_filter, df_filtered_filter, !holiday_step_filter.
  rewrite !filter_filter. apply filter_ext. intros r.
  destruct ((Store r =? store) && (Dept r =? dept)),
    (Filter.date_test date_range r); simpl; try reflexivity;
    now rewrite ?andb_true_r, ?andb_false_r.
Qed.

(** ** Sums, means and maxima *)







(** ** The overview tab *)



(** ** The sidebar *)

Lemma date_min_spec (l : list Timestamp) (m : Timestamp) :
  Sidebar.date_min l = Some m -> In m l /\ forall t, In t l -> m <= t.
Proof.
  revert m. induction l as [|x l IH]; intros m; simpl; [discriminate|].
  destruct (Sidebar.date_min l) as [m'|] eqn:E.
  - destruct (IH m' eq_refl) as [Hin Hle]. intros H; inversion H; subst; clear H.
    split.
    + destruct (Z.min_spec x m') as [[_ ->]|[_ ->]]; [now left | now right].
    + intros t [<-|Ht]; [lia|]. specialize (Hle t Ht). lia.
  - destruct l as [|y l]; [|simpl in E; destruct (Sidebar.date_min l); discriminate].
    intros H; inversion H; subst. split; [now left|]. intros t [<-|[]]. lia.
Qed.

Lemma date_max_spec (l : list Timestamp) (m : Timestamp) :
  Sidebar.date_max l = Some m -> In m l /\ forall t, In t l -> t <= m.
Proof.
  revert m. induction l as [|x l IH]; intros m; simpl; [discriminate|].
  destruct (Sidebar.date_max l) as [m'|] eqn:E.
  - destruct (IH m' eq_refl) as [Hin Hle]. intros H; inversion H; subst; clear H.
    split.
    + destruct (Z.max_spec x m') as [[_ ->]|[_ ->]]; [now right | now left].
    + intros t [<-|Ht]; [lia|]. specialize (Hle t Ht). lia.
  - destruct l as [|y l]; [|simpl in E; destruct (Sidebar.date_max l); discriminate].
    intros H; inversion H; subst. split; [now left|]. intros t [<-|[]]. lia.
Qed.

Lemma to_date_floor (t : Timestamp) :
  to_datetime (Sidebar.to_date t) <= t.
Proof.
  unfold to_datetime, Sidebar.to_date. rewrite Z.mul_comm.
  apply Z.mul_div_le. reflexivity.
Qed.

Lemma to_date_midnight (d : date) : Sidebar.to_date (to_datetime d) = d.
Proof.
  unfold to_datetime, Sidebar.to_date. apply Z.div_mul. discriminate.
Qed.

(** X5. With the date widget left at its default, the range from the day of
    the earliest row to the day of the latest row, and the holiday selector
    at "All", the sidebar view holds exactly the rows dated no later than
    midnight of the last day. When every date of the table is a midnight that
    is the whole table; a row stamped later on the last day is left out. *)
Theorem default_date_range_view (df : DataFrame) (date_range : date * date) :
  Sidebar.default_date_range df = Some date_range ->
  (forall r,
      In r (Filter.df_filtered df date_range "All") <->
      In r df /\ Date r <= to_datetime (snd date_range)) /\
  ((forall r, In r df -> exists d, Date r = to_datetime d) ->
   Filter.df_filtered df date_range "All" = df).
Proof.
  unfold Sidebar.default_date_range.
  destruct (Sidebar.date_min (map Date df)) as [lo|] eqn:Elo; [|discriminate].
  destruct (Sidebar.date_max (map Date df)) as [hi|] eqn:Ehi; [|discriminate].
  intros H; inversion H; subst date_range; clear H.
  destruct (date_min_spec _ _ Elo) as [_ Hlo].
  destruct (date_max_spec _ _ Ehi) as [Hhi_in Hhi].
  assert (Hlow : forall r, In r df -> to_datetime (Sidebar.to_date lo) <= Date r).
  { intros r Hr. assert (H1 := to_date_floor lo).
    assert (H2 := Hlo (Date r) (in_map Date _ _ Hr)). lia. }
  split.
  - intros r. rewrite (in_df_filtered df _ Filter.All r).
    unfold Filter.date_in_range, Filter.holiday_pred. simpl.
    split; [tauto|]. intros [Hr Hd]. specialize (Hlow r Hr). tauto.
  - intros Hmid. apply (df_filtered_all_unrestricted df).
    intros r Hr. unfold Filter.date_in_range. simpl.
    split; [now apply Hlow|].
    apply in_map_iff in Hhi_in. destruct Hhi_in as [r' [E Hr']].
    destruct (Hmid r' Hr') as [d Hd]. rewrite <- E, Hd, to_date_midnight.
    rewrite <- Hd, E. apply Hhi. now apply in_map.
Qed.

Lemma default_date_range_view_witness :
  Filter.df_filtered Sample.table (14645, 14652) "All" = Sample.table.
Proof.
  apply (default_date_range_view Sample.table (14645, 14652) eq_refl).
  intros r Hr. simpl in Hr.
  decompose [or] Hr; subst; try contradiction;
    [exists 14645 | exists 14652 | exists 14645 | exists 14652]; reflexivity.
Defined.

Lemma in_unique_int (x : Z) (l : list Z) :
  In x (Sidebar.unique l) <-> In x l.
Proof.
  induction l as [|y l IH]; simpl; [tauto|].
  rewrite filter_In, IH, negb_true_iff, Z.eqb_neq.
  destruct (Z.eq_dec x y) as [->|Hne]; [tauto|]. intuition congruence.
Qed.

Lemma unique_nodup (l : list Z) : NoDup (Sidebar.unique l).
Proof.
  induction l as [|y l IH]; simpl; constructor.
  - rewrite filter_In, negb_true_iff, Z.eqb_neq. tauto.
  - now apply NoDup_filter.
Qed.

Lemma insert_sorted_perm (x : Z) (l : list Z) :
  Permutation (x :: l) (Sidebar.insert_sorted x l).
Proof.
  induction l as [|y l IH]; simpl; [reflexivity|].
  destruct (x <? y); [reflexivity|].
  rewrite perm_swap. now apply perm_skip.
Qed.

Lemma insert_sorted_sorted (x : Z) (l : list Z) :
  StronglySorted Z.le l -> StronglySorted Z.le (Sidebar.insert_sorted x l).
Proof.
  induction 1 as [|y l Hs IH Hy]; simpl; [repeat constructor|].
  destruct (Z.ltb_spec x y) as [Hlt|Hge].
  - constructor; [now constructor|].
    constructor; [lia|]. rewrite Forall_forall in *. intros z Hz.
    specialize (Hy z Hz). lia.
  - constructor; [exact IH|]. rewrite Forall_forall in *. intros z Hz.
    apply (Permutation_in _ (Permutation_sym (insert_sorted_perm x l))) in Hz.
    destruct Hz as [<-|Hz]; [exact Hge | now apply Hy].
Qed.

Lemma sorted_fold (l acc : list Z) :
  StronglySorted Z.le acc ->
  Permutation (l ++ acc)%list
    (fold_left (fun acc x => Sidebar.insert_sorted x acc) l acc) /\
  StronglySorted Z.le
    (fold_left (fun acc x => Sidebar.insert_sorted x acc) l acc).
Proof.
  revert acc. induction l as [|x l IH]; intros acc Hacc; simpl.
  - split; [reflexivity | exact Hacc].
  - destruct (IH (Sidebar.insert_sorted x acc) (insert_sorted_sorted x acc Hacc))
      as [Hp Hs].
    split; [|exact Hs].
    rewrite <- Hp. rewrite <- insert_sorted_perm. apply Permutation_middle.
Qed.

Lemma sorted_spec (l : list Z) :
  Permutation l (Sidebar.sorted l) /\ StronglySorted Z.le (Sidebar.sorted l).
Proof.
  destruct (sorted_fold l [] (SSorted_nil _)) as [Hp Hs].
  rewrite app_nil_r in Hp. now split.
Qed.

Lemma sorted_nodup_strict (l : list Z) :
  StronglySorted Z.le l -> NoDup l -> StronglySorted Z.lt l.
Proof.
  induction 1 as [|x l Hs IH Hx]; intros Hnd; [constructor|].
  inversion Hnd; subst. constructor; [now apply IH|].
  rewrite Forall_forall in *. intros y Hy. specialize (Hx y Hy).
  assert (x <> y) by (intros ->; contradiction). lia.
Qed.

(** The options of a selector over an integer column. *)
Lemma options_spec (column : list Z) :
  StronglySorted Z.lt (Sidebar.sorted (Sidebar.unique column)) /\
  forall v, In v (Sidebar.sorted (Sidebar.unique column)) <-> In v column.
Proof.
  destruct (sorted_spec (Sidebar.unique column)) as [Hp Hs]. split.
  - apply sorted_nodup_strict; [exact Hs|].
    apply (Permutation_NoDup Hp), unique_nodup.
  - intros v. split; intros H.
    + apply in_unique_int.
      apply (Permutation_in _ (Permutation_sym Hp)). exact H.
    + apply (Permutation_in _ Hp). now apply in_unique_int.
Qed.

(** X6. The store and department selectors offer each store and each
    department of the table exactly once, in ascending order, and nothing
    else; so every store a user can pick has rows in the store-size chart and
    every department has rows in the sales-distribution chart. *)
Theorem selector_options_cover (df : DataFrame) :
  StronglySorted Z.lt (Sidebar.store_options df) /\
  StronglySorted Z.lt (Sidebar.dept_options df) /\
  (forall s, In s (Sidebar.store_options df) <-> exists r, In r df /\ Store r = s) /\
  (forall d, In d (Sidebar.dept_options df) <-> exists r, In r df /\ Dept r = d) /\
  (forall s, In s (Sidebar.store_options df) -> StoreTab.df_size_filtered df s <> []) /\
  (forall d, In d (Sidebar.dept_options df) -> StoreTab.df_dept_filtered df d <> []).
Proof.
  unfold Sidebar.store_options, Sidebar.dept_options.
  destruct (options_spec (map Store df)) as [Hs1 Hs2].
  destruct (options_spec (map Dept df)) as [Hd1 Hd2].
  assert (HS : forall s, In s (Sidebar.sorted (Sidebar.unique (map Store df))) <->
                         exists r, In r df /\ Store r = s).
  { intros s. rewrite Hs2, in_map_iff. split; intros [r [? ?]]; exists r; tauto. }
  assert (HD : forall d, In d (Sidebar.sorted (Sidebar.unique (map Dept df))) <->
                         exists r, In r df /\ Dept r = d).
  { intros d. rewrite Hd2, in_map_iff. split; intros [r [? ?]]; exists r; tauto. }
  split; [exact Hs1 | split; [exact Hd1 | split; [exact HS | split; [exact HD | split]]]].
  - intros s Hin Hnil. apply HS in Hin. destruct Hin as [r [Hr E]].
    assert (Hin : In r (StoreTab.df_size_filtered df s)).
    { unfold StoreTab.df_size_filtered. apply in_mask_index.
      split; [exact Hr | now apply Z.eqb_eq]. }
    rewrite Hnil in Hin. contradiction.
  - intros d Hin Hnil. apply HD in Hin. destruct Hin as [r [Hr E]].
    assert (Hin : In r (StoreTab.df_dept_filtered df d)).
    { unfold StoreTab.df_dept_filtered. apply in_mask_index.
      split; [exact Hr | now apply Z.eqb_eq]. }
    rewrite Hnil in Hin. contradiction.
Qed.

(** ** Group totals add up *)



Section GroupTotals.

Context {K : Type} (cmp : K -> K -> comparison) (Hcmp : StrictCmp cmp).
Context {A : Type} (key : A -> K) (measure : A -> Q).

Lemma ascending_nodup (ks : list K) : ascending cmp ks -> NoDup ks.
Proof.
  unfold ascending. induction 1 as [|k ks _ IH Hk]; constructor; [|exact IH].
  intros Hin. rewrite Forall_forall in Hk. specialize (Hk k Hin).
  rewrite (cmp_refl cmp Hcmp) in Hk. discriminate.
Qed.





Lemma groupby_mean_keys_gen (df : list A) :
  map fst (groupby_mean cmp key measure df) = group_keys cmp (map key df).
Proof.
  unfold groupby_mean. rewrite map_map. cbn [fst]. apply (groupby_keys cmp).
Qed.

(** A key that occurs has its entry. *)
Lemma groupby_mean_entry (df : list A) (r : A) :
  In r df ->
  In (key r,
      Series.mean (map measure (filter (fun x => key_eqb cmp (key x) (key r)) df)))
     (groupby_mean cmp key measure df).
Proof.
  intros Hr. unfold groupby_mean, groupby. rewrite map_map. cbn [fst snd].
  apply in_map_iff. exists (key r). split; [reflexivity|].
  apply (in_group_keys cmp Hcmp). now apply in_map.
Qed.

End GroupTotals.



(** ** Month totals *)



(** ** The store tab *)





(** ** The holiday tab *)

Lemma pair_cmp_strict : StrictCmp HolidayTab.pair_cmp.
Proof.
  unfold HolidayTab.pair_cmp. split.
  - intros [a1 a2] [b1 b2]. simpl.
    destruct (int_cmp a1 b1) eqn:E1.
    + apply (cmp_eq _ int_cmp_strict) in E1. subst b1.
      rewrite (cmp_eq _ str_cmp_strict). split; congruence.
    + split; [discriminate|]. intros H; inversion H; subst.
      rewrite (cmp_refl int_cmp int_cmp_strict) in E1. discriminate.
    + split; [discriminate|]. intros H; inversion H; subst.
      rewrite (cmp_refl int_cmp int_cmp_strict) in E1. discriminate.
  - intros [a1 a2] [b1 b2]. simpl.
    rewrite (cmp_antisym _ int_cmp_strict a1 b1).
    destruct (int_cmp b1 a1); simpl; try reflexivity.
    apply (cmp_antisym _ str_cmp_strict).
  - intros [a1 a2] [b1 b2] [c1 c2]. simpl.
    destruct (int_cmp a1 b1) eqn:E1; try discriminate;
      destruct (int_cmp b1 c1) eqn:E2; try discriminate.
    + apply (cmp_eq _ int_cmp_strict) in E1, E2. subst.
      rewrite (cmp_refl int_cmp int_cmp_strict).
      apply (cmp_trans _ str_cmp_strict).
    + apply (cmp_eq _ int_cmp_strict) in E1. subst. now rewrite E2.
    + apply (cmp_eq _ int_cmp_strict) in E2. subst. now rewrite E1.
    + now rewrite (cmp_trans _ int_cmp_strict _ _ _ E1 E2).
Qed.

Lemma combine_map_self {A B : Type} (f : A -> B) (l : list A) :
  combine (map f l) l = map (fun x => (f x, x)) l.
Proof.
  induction l as [|x l IH]; simpl; [reflexivity | now rewrite IH].
Qed.

Lemma filter_map_comm {A B : Type} (g : A -> B) (q : B -> bool) (l : list A) :
  filter q (map g l) = map g (filter (fun x => q (g x)) l).
Proof.
  induction l as [|x l IH]; simpl; [reflexivity|].
  destruct (q (g x)); simpl; now rewrite IH.
Qed.

(** The sales of the rows of a labelled frame that carry [label]. *)
Lemma labelled_sales (f : Row -> string) (label : string) (df : DataFrame) :
  map (fun c => Weekly_Sales (snd c))
      (filter (fun c => key_eqb str_cmp (fst c) label) (combine (map f df) df)) =
  map Weekly_Sales (filter (fun r => String.eqb (f r) label) df).
Proof.
  rewrite combine_map_self, filter_map_comm, map_map. cbn [fst snd].
  f_equal. apply filter_ext. intros r. apply str_key_eqb.
Qed.

Lemma holiday_avg_keys (df : DataFrame) :
  map fst (HolidayTab.holiday_avg df) =
  group_keys str_cmp
    (map (fun r => if IsHoliday_x r then "Holiday" else "Non-Holiday") df).
Proof.
  unfold HolidayTab.holiday_avg. rewrite (groupby_mean_keys_gen str_cmp).
  unfold HolidayTab.Holiday_Flag. rewrite combine_map_self, map_map.
  reflexivity.
Qed.

(** X11. The holiday comparison has at most two bars, Holiday before
    Non-Holiday; a bar is there exactly when the table has a row of that
    kind, and its height is the Average Weekly Sales KPI of the whole table
    filtered with the holiday selector at "Yes", respectively "No". *)
Theorem holiday_avg_matches_filter (df : DataFrame) :
  ascending str_cmp (map fst (HolidayTab.holiday_avg df)) /\
  (forall label avg,
      In (label, avg) (HolidayTab.holiday_avg df) ->
      (label = "Holiday" /\
       avg = Overview.avg_sales (Filter.holiday_step df "Yes")) \/
      (label = "Non-Holiday" /\
       avg = Overview.avg_sales (Filter.holiday_step df "No"))) /\
  (In "Holiday" (map fst (HolidayTab.holiday_avg df)) <->
   exists r, In r df /\ IsHoliday_x r = true) /\
  (In "Non-Holiday" (map fst (HolidayTab.holiday_avg df)) <->
   exists r, In r df /\ IsHoliday_x r = false).
Proof.
  split; [|split; [|split]].
  - rewrite holiday_avg_keys. apply (group_keys_sorted str_cmp str_cmp_strict).
  - intros label avg H. unfold HolidayTab.holiday_avg in H.
    apply (in_groupby_mean str_cmp str_cmp_strict) in H.
    destruct H as [[c [Hc E]] ->].
    unfold HolidayTab.Holiday_Flag in *. rewrite labelled_sales.
    rewrite combine_map_self in Hc. apply in_map_iff in Hc.
    destruct Hc as [r [<- Hr]]. simpl in E. subst label.
    unfold Overview.avg_sales. rewrite !holiday_step_filter. simpl.
    destruct (IsHoliday_x r); [left | right]; (split; [reflexivity|]);
      do 2 f_equal; apply filter_ext; intros x; now destruct (IsHoliday_x x).
  - rewrite holiday_avg_keys, (in_group_keys str_cmp str_cmp_strict), in_map_iff.
    split; intros [r [H1 H2]]; exists r.
    + split; [exact H2|]. destruct (IsHoliday_x r); [reflexivity | discriminate].
    + now rewrite H2.
  - rewrite holiday_avg_keys, (in_group_keys str_cmp str_cmp_strict), in_map_iff.
    split; intros [r [H1 H2]]; exists r.
    + split; [exact H2|]. destruct (IsHoliday_x r); [discriminate | reflexivity].
    + now rewrite H2.
Qed.



Lemma in_seq_Z (lo : Z) (n : nat) (z : Z) :
  In z (map (fun i => lo + Z.of_nat i) (seq 0 n)) <-> lo <= z < lo + Z.of_nat n.
Proof.
  rewrite in_map_iff. split.
  - intros [i [<- Hi]]. apply in_seq in Hi. lia.
  - intros H. exists (Z.to_nat (z - lo)). split; [lia|]. apply in_seq. lia.
Qed.

(** X13. The trend chart has at most 20 points: its keys are distinct
    (weeks from holiday, event) pairs, ordered by week and then by event
    name, with the week between -2 and 2 and the event one of the four
    holidays; each point is the mean over the window rows with that key. *)
Theorem trend_chart_points (df : DataFrame) :
  ascending HolidayTab.pair_cmp (map fst (HolidayTab.trend_chart df)) /\
  (List.length (HolidayTab.trend_chart df) <= 20)%nat /\
  (forall week event avg,
      In ((week, event), avg) (HolidayTab.trend_chart df) ->
      -2 <= week <= 2 /\
      In event ["Super Bowl"; "Labor Day"; "Thanksgiving"; "Christmas"] /\
      avg =
      Series.mean
        (map (fun w => Weekly_Sales (Window.base w))
           (filter (fun w => (Window.Delta_Week w =? week) &&
                             String.eqb (Window.Event w) event)
                   (Window.combined_trends df)))).
Proof.
  assert (Hasc : ascending HolidayTab.pair_cmp
                   (map fst (HolidayTab.trend_chart df))).
  { unfold HolidayTab.trend_chart.
    rewrite (groupby_mean_keys_gen HolidayTab.pair_cmp).
    apply (group_keys_sorted HolidayTab.pair_cmp pair_cmp_strict). }
  assert (Hkey : forall week event,
             In (week, event) (map fst (HolidayTab.trend_chart df)) ->
             -2 <= week <= 2 /\
             In event ["Super Bowl"; "Labor Day"; "Thanksgiving"; "Christmas"]).
  { intros week event H. unfold HolidayTab.trend_chart in H.
    rewrite (groupby_mean_keys_gen HolidayTab.pair_cmp) in H.
    apply (in_group_keys HolidayTab.pair_cmp pair_cmp_strict), in_map_iff in H.
    destruct H as [w [E Hw]]. inversion E; subst.
    apply combined_trends_bounds in Hw. tauto. }
  split; [exact Hasc | split].
  - rewrite <- (length_map fst).
    change 20%nat with
      (List.length
         (list_prod (map (fun i => -2 + Z.of_nat i) (seq 0 5))
                    ["Super Bowl"; "Labor Day"; "Thanksgiving"; "Christmas"])).
    apply NoDup_incl_length.
    + now apply (ascending_nodup HolidayTab.pair_cmp pair_cmp_strict).
    + intros [week event] H. apply Hkey in H. destruct H as [Hw He].
      apply in_prod; [|exact He]. apply in_seq_Z. simpl. lia.
  - intros week event avg H.
    destruct (Hkey week event (in_map fst _ _ H)) as [Hw He].
    split; [exact Hw | split; [exact He|]].
    unfold HolidayTab.trend_chart in H.
    apply (in_groupby_mean HolidayTab.pair_cmp pair_cmp_strict) in H.
    destruct H as [_ ->]. do 2 f_equal. apply filter_ext. intros w.
    apply eq_true_iff_eq.
    rewrite (key_eqb_eq HolidayTab.pair_cmp pair_cmp_strict).
    rewrite andb_true_iff, Z.eqb_eq, String.eqb_eq.
    split; [intros E; inversion E; tauto | intros [-> ->]; reflexivity].
Qed.

(** ** No row is counted in two windows *)

Lemma window_length (df : DataFrame) (anchor : Timestamp) (name : string) :
  List.length (Window.window df anchor name) =
  List.length (filter (Anchors.near anchor) df).
Proof.
  unfold Window.window. rewrite length_map, mask_and_map, mask_index_map.
  reflexivity.
Qed.

Lemma get_holiday_windows_length (df : DataFrame) (anchors : list Timestamp)
    (name : string) :
  List.length (Window.get_holiday_windows df anchors name) =
  list_sum (map (fun a => List.length (filter (Anchors.near a) df)) anchors).
Proof.
  unfold Window.get_holiday_windows. rewrite length_concat, map_map.
  f_equal. apply map_ext. intros a. apply window_length.
Qed.

Lemma combined_trends_length (df : DataFrame) :
  List.length (Window.combined_trends df) =
  list_sum (map (fun a => List.length (filter (Anchors.near a) df)) Anchors.all).
Proof.
  unfold Window.combined_trends. rewrite length_concat. cbn [map].
  rewrite !get_holiday_windows_length. unfold Anchors.all, list_sum.
  cbn [map fold_right]. lia.
Qed.

Lemma list_sum_map_add {A : Type} (f g : A -> nat) (l : list A) :
  list_sum (map (fun x => (f x + g x)%nat) l) =
  (list_sum (map f l) + list_sum (map g l))%nat.
Proof.
  induction l as [|x l IH]; simpl; [reflexivity | rewrite IH; lia].
Qed.

Lemma length_filter_sum {A : Type} (p : A -> bool) (l : list A) :
  List.length (filter p l) =
  list_sum (map (fun x => if p x then 1%nat else 0%nat) l).
Proof.
  induction l as [|x l IH]; simpl; [reflexivity|].
  destruct (p x); simpl; now rewrite IH.
Qed.

(** Counting by window or by row gives the same number. *)
Lemma count_swap (anchors : list Timestamp) (df : DataFrame) :
  list_sum (map (fun a => List.length (filter (Anchors.near a) df)) anchors) =
  list_sum (map (fun r => List.length (filter (fun a => Anchors.near a r) anchors)) df).
Proof.
  induction df as [|r df IH]; simpl.
  - induction anchors as [|a anchors IHa]; simpl; [reflexivity | exact IHa].
  - rewrite <- IH, length_filter_sum, <- list_sum_map_add.
    f_equal. apply map_ext. intros a.
    destruct (Anchors.near a r); reflexivity.
Qed.

Lemma near_separate (shared a b : Timestamp) (r : Row) :
  Anchors.separate shared a b = true ->
  Anchors.near a r = true -> Anchors.near b r = true ->
  Date r = shared.
Proof.
  unfold Anchors.separate, Anchors.near, Timedelta_weeks.
  rewrite orb_true_iff, !andb_true_iff, Z.ltb_lt, !Z.eqb_eq, !Z.geb_leb, !Z.leb_le.
  intros Hab [H1 H2] [H3 H4]. lia.
Qed.

Lemma near_at_most_one (shared : Timestamp) (anchors : list Timestamp) (r : Row) :
  Anchors.pairwise_separate shared anchors = true ->
  Date r <> shared ->
  (List.length (filter (fun a => Anchors.near a r) anchors) <= 1)%nat.
Proof.
  intros Hsep Hdate. induction anchors as [|a anchors IH]; simpl; [lia|].
  simpl in Hsep. apply andb_true_iff in Hsep. destruct Hsep as [Ha Hrest].
  destruct (Anchors.near a r) eqn:E; [|now apply IH].
  rewrite filter_none; [simpl; lia|].
  intros b Hb. rewrite forallb_forall in Ha.
  destruct (Anchors.near b r) eqn:Eb; [|reflexivity].
  exfalso. apply Hdate. exact (near_separate shared a b r (Ha b Hb) E Eb).
Qed.

Lemma near_shared (r : Row) :
  Date r = Anchors.shared_date ->
  filter (fun a => Anchors.near a r) Anchors.all =
  [timestamp_of 2013 11 29; timestamp_of 2013 12 27].
Proof.
  intros H. unfold Anchors.near. rewrite H. reflexivity.
Qed.

Lemma list_sum_le {A : Type} (f g : A -> nat) (l : list A) :
  (forall x, In x l -> (f x <= g x)%nat) ->
  (list_sum (map f l) <= list_sum (map g l))%nat.
Proof.
  induction l as [|x l IH]; intros H; simpl; [lia|].
  assert (Hx := H x (or_introl eq_refl)).
  assert (Hl := IH (fun y Hy => H y (or_intror Hy))). lia.
Qed.

Lemma list_sum_ones {A : Type} (l : list A) :
  list_sum (map (fun _ => 1%nat) l) = List.length l.
Proof.
  induction l as [|x l IH]; simpl; [reflexivity | now rewrite IH].
Qed.

(** X14. Fifteen of the sixteen holiday windows share no date with any
    other; the windows of Thanksgiving 2013 and Christmas 2013, whose anchors
    are exactly four weeks apart, share the single date 2013-12-13. So a row
    dated otherwise lies in at most one window, a row dated 2013-12-13 lies in
    exactly those two (two weeks after Thanksgiving and two weeks before
    Christmas), and [combined_trends] has at most one row per row of the
    table plus one more for each row of that date. *)
Theorem windows_overlap_once (df : DataFrame) :
  (forall r, Date r <> timestamp_of 2013 12 13 ->
             (List.length (Window.combined_trends [r]) <= 1)%nat) /\
  (forall r, Date r = timestamp_of 2013 12 13 ->
             Window.combined_trends [r] =
             [Window.mkWindowRow r "Thanksgiving" 2;
              Window.mkWindowRow r "Christmas" (-2)]) /\
  (List.length (Window.combined_trends df) <=
   List.length df +
   List.length (filter (fun r => (Date r =? timestamp_of 2013 12 13)%Z) df))%nat.
Proof.
  split; [|split].
  - intros r Hr. rewrite combined_trends_length, count_swap.
    cbn [map]. unfold list_sum. cbn [fold_right]. rewrite Nat.add_0_r.
    now apply (near_at_most_one Anchors.shared_date).
  - intros r Hr. unfold Window.combined_trends, Window.get_holiday_windows.
    cbn [map List.concat]. rewrite !window_single, !app_nil_r, Hr.
    reflexivity.
  - rewrite combined_trends_length, count_swap.
    rewrite length_filter_sum, <- list_sum_ones, <- list_sum_map_add.
    apply list_sum_le. intros r _.
    destruct (Z.eqb_spec (Date r) (timestamp_of 2013 12 13)) as [E|Hne].
    + now rewrite (near_shared r E).
    + assert (H := near_at_most_one Anchors.shared_date Anchors.all r eq_refl Hne).
      lia.
Qed.

(** ** The lift table *)







(** ** Every row gets a bin *)












